(** * FlowMind AI: the dashboard's task, calendar, suggestion and chat logic

    The shipped code is a React single-page application.  Each component
    keeps its data in [useState] cells and changes it from event handlers.
    A component is embedded here as a record of its state cells together
    with one function per handler, from the state before the event to the
    state after it.  Values the handlers read from the browser (the clock,
    the outcome of a network request) are arguments of the handler. *)

From Stdlib Require Import List ZArith NArith Bool String Ascii Lia Sorted.
From Stdlib Require Import DecimalString.
From Stdlib Require DecimalPos DecimalZ.
Import ListNotations.

Set Implicit Arguments.
Local Open Scope list_scope.

(** ** JavaScript strings

    A JavaScript string is a sequence of UTF-16 code units; the string
    primitives the components use are defined on that sequence. *)
Module Js.

Definition str := list N.

(** An ASCII literal of the source text. *)
Definition lit (s : string) : str :=
  map N_of_ascii (list_ascii_of_string s).

(** [x === y] on strings. *)
Fixpoint eqb (x y : str) : bool :=
  match x, y with
  | [], [] => true
  | c :: x', d :: y' => N.eqb c d && eqb x' y'
  | _, _ => false
  end.

(** ECMAScript WhiteSpace and LineTerminator code points, the ones
    [String.prototype.trim] strips. *)
Definition isWhiteSpace (c : N) : bool :=
  (N.eqb c 9 || N.eqb c 10 || N.eqb c 11 || N.eqb c 12 || N.eqb c 13
   || N.eqb c 32 || N.eqb c 160 || N.eqb c 5760
   || (N.leb 8192 c && N.leb c 8202)
   || N.eqb c 8232 || N.eqb c 8233 || N.eqb c 8239 || N.eqb c 8287
   || N.eqb c 12288 || N.eqb c 65279)%bool.

Fixpoint trimStart (s : str) : str :=
  match s with
  | [] => []
  | c :: s' => if isWhiteSpace c then trimStart s' else s
  end.

Definition trimEnd (s : str) : str := rev (trimStart (rev s)).

Definition trim (s : str) : str := trimEnd (trimStart s).

(** Truthiness of a string: only the empty string is falsy. *)
Definition truthy (s : str) : bool :=
  match s with [] => false | _ :: _ => true end.

Fixpoint startsWith (s p : str) : bool :=
  match p, s with
  | [], _ => true
  | _ :: _, [] => false
  | c :: p', d :: s' => N.eqb c d && startsWith s' p'
  end.

Fixpoint includes (s p : str) : bool :=
  startsWith s p
  || match s with
     | [] => false
     | _ :: s' => includes s' p
     end.

(** [x < y] on strings: lexicographic on code units. *)
Fixpoint ltb (x y : str) : bool :=
  match x, y with
  | _, [] => false
  | [], _ :: _ => true
  | c :: x', d :: y' => N.ltb c d || (N.eqb c d && ltb x' y')
  end.

(** [n.toString()] for an integral number [n]. *)
Definition toString (n : Z) : str :=
  lit (NilZero.string_of_int (Z.to_int n)).

(** [toLowerCase] on the letters of ASCII; the other code units are kept.
    It stands in for [String.prototype.toLowerCase] in the examples. *)
Definition asciiToLowerCase (s : str) : str :=
  map (fun c => if (N.leb 65 c && N.leb c 90)%bool then (c + 32)%N else c) s.

(** [s.padStart(targetLength, c)] for a pad string of the one code unit
    [c]. *)
Definition padStart (s : str) (targetLength : nat) (c : N) : str :=
  repeat c (targetLength - List.length s) ++ s.

(** [s.split(c)[0]]: the part of [s] before the first [c], all of [s] when
    [c] is not in it. *)
Fixpoint beforeFirst (c : N) (s : str) : str :=
  match s with
  | [] => []
  | d :: s' => if N.eqb d c then [] else d :: beforeFirst c s'
  end.

(** [s.charAt(0)] and [s.slice(1)]. *)
Definition charAt0 (s : str) : str := firstn 1 s.

Definition slice1 (s : str) : str := skipn 1 s.

(** The civil date of a day number counted from 1970-01-01, in the
    proleptic Gregorian calendar. *)
Definition civilFromDays (days : Z) : Z * Z * Z :=
  let z := (days + 719468)%Z in
  let era := (z / 146097)%Z in
  let doe := (z - era * 146097)%Z in
  let yoe := ((doe - doe / 1460 + doe / 36524 - doe / 146096) / 365)%Z in
  let doy := (doe - (365 * yoe + yoe / 4 - yoe / 100))%Z in
  let mp := ((5 * doy + 2) / 153)%Z in
  let d := (doy - (153 * mp + 2) / 5 + 1)%Z in
  let m := (if (mp <? 10)%Z then mp + 3 else mp - 9)%Z in
  let y := (yoe + era * 400 + (if (m <=? 2)%Z then 1 else 0))%Z in
  (y, m, d).

Definition digits (width : nat) (n : Z) : str :=
  padStart (lit (NilZero.string_of_int (Z.to_int n))) width 48.

(** [new Date(ms).toISOString()] for the instants of the years 0000 to
    9999, [YYYY-MM-DDTHH:mm:ss.sssZ].  It stands in for
    [Date.prototype.toISOString] in the examples. *)
Definition isoString (ms : Z) : str :=
  let days := (ms / 86400000)%Z in
  let rest := (ms mod 86400000)%Z in
  let '(y, m, d) := civilFromDays days in
  digits 4 y ++ lit "-" ++ digits 2 m ++ lit "-" ++ digits 2 d
  ++ lit "T" ++ digits 2 (rest / 3600000) ++ lit ":"
  ++ digits 2 (rest / 60000 mod 60) ++ lit ":"
  ++ digits 2 (rest / 1000 mod 60) ++ lit "."
  ++ digits 3 (rest mod 1000) ++ lit "Z".

End Js.

(** ** Handler outcomes

    Every handler of the components has the shape
    [async () => { try { body } catch (error) { console.error(...) } }].
    Its outcome is the component state it leaves and the error, if any,
    that reached the [catch] block.  The error names are the ones of the
    specification's taxonomy; [OtherError] carries the message of a plain
    [Error]. *)
Inductive Error : Type :=
| ValidationError
| NotFoundError
| UpstreamError
| RateLimitError
| OtherError (message : Js.str).

Record Outcome (S : Type) : Type := mkOutcome {
  state : S;
  raised : option Error
}.

(** A [try] block that ran to its end. *)
Definition done {S : Type} (s : S) : Outcome S :=
  {| state := s; raised := None |}.

(** Two successive readings of the browser clock: [Date.now()] and the
    [new Date()] that follows it, both in milliseconds since the epoch. *)
Record Clock : Type := mkClock {
  now : Z;
  date : Z
}.

(** ** TaskManager *)
Module TaskManager.

Inductive Priority : Type := low | medium | high.

Inductive Status : Type := pending | in_progress | completed.

Definition Status_eqb (a b : Status) : bool :=
  match a, b with
  | pending, pending | in_progress, in_progress | completed, completed => true
  | _, _ => false
  end.

(** [created_at] holds [new Date().toISOString()].  The ISO rendering has a
    fixed width and orders like the instant it renders, so the model keeps
    the instant. *)
Record Task : Type := mkTask {
  id : Js.str;
  title : Js.str;
  description : option Js.str;
  priority : Priority;
  status : Status;
  due_date : option Js.str;
  created_at : Z
}.

(** The [newTask] form cell. *)
Record NewTask : Type := mkNewTask {
  new_title : Js.str;
  new_description : Js.str;
  new_priority : Priority;
  new_due_date : Js.str
}.

(** The value of the status [select]: ['all'] or one of the statuses. *)
Inductive Filter : Type :=
| all
| only (s : Status).

(** The state cells of the component.  [filteredTasks] is not a cell of the
    model: the effect on [[tasks, filter, searchTerm]] recomputes it with
    [filterTasks] after every change, before the next event is handled. *)
Record State : Type := mkState {
  tasks : list Task;
  loading : bool;
  filter : Filter;
  searchTerm : Js.str;
  showAddTask : bool;
  newTask : NewTask
}.

Definition emptyNewTask : NewTask :=
  {| new_title := []; new_description := []; new_priority := medium;
     new_due_date := [] |}.

(** The initial values of the [useState] cells. *)
Definition initial : State :=
  {| tasks := []; loading := true; filter := all; searchTerm := [];
     showAddTask := false; newTask := emptyNewTask |}.

Definition setTasks (f : list Task -> list Task) (st : State) : State :=
  {| tasks := f (tasks st); loading := loading st; filter := filter st;
     searchTerm := searchTerm st; showAddTask := showAddTask st;
     newTask := newTask st |}.

Definition setLoading (b : bool) (st : State) : State :=
  {| tasks := tasks st; loading := b; filter := filter st;
     searchTerm := searchTerm st; showAddTask := showAddTask st;
     newTask := newTask st |}.

Definition setFilter (f : Filter) (st : State) : State :=
  {| tasks := tasks st; loading := loading st; filter := f;
     searchTerm := searchTerm st; showAddTask := showAddTask st;
     newTask := newTask st |}.

Definition setSearchTerm (s : Js.str) (st : State) : State :=
  {| tasks := tasks st; loading := loading st; filter := filter st;
     searchTerm := s; showAddTask := showAddTask st;
     newTask := newTask st |}.

Definition setShowAddTask (b : bool) (st : State) : State :=
  {| tasks := tasks st; loading := loading st; filter := filter st;
     searchTerm := searchTerm st; showAddTask := b;
     newTask := newTask st |}.

Definition setNewTask (f : NewTask -> NewTask) (st : State) : State :=
  {| tasks := tasks st; loading := loading st; filter := filter st;
     searchTerm := searchTerm st; showAddTask := showAddTask st;
     newTask := f (newTask st) |}.

(** The demo data of [fetchTasks]; ['2024-01-15'] is midnight UTC of that
    day. *)
Definition mockTasks : list Task :=
  [ {| id := Js.lit "1"; title := Js.lit "Review quarterly reports";
       description := Some (Js.lit "Analyze Q4 performance metrics");
       priority := high; status := pending;
       due_date := Some (Js.lit "2024-01-20");
       created_at := 1705276800000 |};
    {| id := Js.lit "2"; title := Js.lit "Prepare client presentation";
       description := Some (Js.lit "Create slides for next week's meeting");
       priority := high; status := in_progress;
       due_date := Some (Js.lit "2024-01-18");
       created_at := 1705190400000 |};
    {| id := Js.lit "3"; title := Js.lit "Update project documentation";
       description := Some (Js.lit "Add recent changes to the docs");
       priority := medium; status := pending;
       due_date := Some (Js.lit "2024-01-25");
       created_at := 1705104000000 |};
    {| id := Js.lit "4"; title := Js.lit "Team one-on-ones";
       description := Some (Js.lit "Schedule individual meetings");
       priority := medium; status := completed;
       due_date := Some (Js.lit "2024-01-16");
       created_at := 1705017600000 |};
    {| id := Js.lit "5"; title := Js.lit "Code review";
       description := Some (Js.lit "Review pull requests");
       priority := low; status := pending;
       due_date := None;
       created_at := 1705276800000 |} ].

Definition fetchTasks (st : State) : Outcome State :=
  done (setLoading false (setTasks (fun _ => mockTasks) st)).

(** The inputs of the add-task dialog. *)
Inductive FormEdit : Type :=
| EditTitle (value : Js.str)
| EditDescription (value : Js.str)
| EditPriority (value : Priority)
| EditDueDate (value : Js.str).

Definition editNewTask (e : FormEdit) (prev : NewTask) : NewTask :=
  match e with
  | EditTitle v =>
      {| new_title := v; new_description := new_description prev;
         new_priority := new_priority prev;
         new_due_date := new_due_date prev |}
  | EditDescription v =>
      {| new_title := new_title prev; new_description := v;
         new_priority := new_priority prev;
         new_due_date := new_due_date prev |}
  | EditPriority v =>
      {| new_title := new_title prev;
         new_description := new_description prev;
         new_priority := v; new_due_date := new_due_date prev |}
  | EditDueDate v =>
      {| new_title := new_title prev;
         new_description := new_description prev;
         new_priority := new_priority prev; new_due_date := v |}
  end.

Definition onChange (e : FormEdit) (st : State) : State :=
  setNewTask (editNewTask e) st.

Definition isPriorityEdit (e : FormEdit) : bool :=
  match e with EditPriority _ => true | _ => false end.

Definition addTask (clock : Clock) (st : State) : Outcome State :=
  if negb (Js.truthy (Js.trim (new_title (newTask st)))) then done st
  else
    let task :=
      {| id := Js.toString (now clock);
         title := new_title (newTask st);
         description := Some (new_description (newTask st));
         priority := new_priority (newTask st);
         status := pending;
         due_date := if Js.truthy (new_due_date (newTask st))
                     then Some (new_due_date (newTask st)) else None;
         created_at := date clock |} in
    done (setShowAddTask false
            (setNewTask (fun _ => emptyNewTask)
               (setTasks (fun prev => task :: prev) st))).

Definition withStatus (task : Task) (s : Status) : Task :=
  {| id := id task; title := title task; description := description task;
     priority := priority task; status := s; due_date := due_date task;
     created_at := created_at task |}.

Definition updateTaskStatus (taskId : Js.str) (s : Status) (st : State)
  : Outcome State :=
  done (setTasks
          (fun prev =>
             map (fun task =>
                    if Js.eqb (id task) taskId then withStatus task s
                    else task) prev) st).

(** The operation behind the [Complete] button and behind the check box of
    a task that is not completed: [updateTaskStatus(task.id, 'completed')]. *)
Definition completeTask (taskId : Js.str) (st : State) : Outcome State :=
  updateTaskStatus taskId completed st.

Section Display.

(** [String.prototype.toLowerCase] of the host language. *)
Variable toLowerCase : Js.str -> Js.str.

Definition matchesSearch (term : Js.str) (task : Task) : bool :=
  Js.includes (toLowerCase (title task)) (toLowerCase term)
  || match description task with
     | Some d => Js.includes (toLowerCase d) (toLowerCase term)
     | None => false
     end.

Definition filterTasks (st : State) : list Task :=
  let filtered := tasks st in
  let filtered :=
    match filter st with
    | all => filtered
    | only s => List.filter (fun task => Status_eqb (status task) s) filtered
    end in
  let filtered :=
    if Js.truthy (searchTerm st)
    then List.filter (matchesSearch (searchTerm st)) filtered
    else filtered in
  filtered.

End Display.

(** The three buttons rendered for a task of the displayed list. *)
Inductive Button : Type :=
| CheckBox
| StartButton
| CompleteButton.

(** The [updateTaskStatus] call wired to a button of the row of [task];
    [None] when the row does not render the button. *)
Definition onClick (b : Button) (task : Task) : option (Js.str * Status) :=
  match b with
  | CheckBox =>
      Some (id task,
            if Status_eqb (status task) completed then pending
            else completed)
  | StartButton =>
      if Status_eqb (status task) pending then Some (id task, in_progress)
      else None
  | CompleteButton =>
      if Status_eqb (status task) in_progress then Some (id task, completed)
      else None
  end.

Definition click (b : Button) (task : Task) (st : State) : Outcome State :=
  match onClick b task with
  | Some (taskId, s) => updateTaskStatus taskId s st
  | None => done st
  end.

(** The order of two creation times in a list that shows the newer task
    first. *)
Definition newerFirst (a b : Z) : Prop := (b <= a)%Z.

(** Status of the task an identifier names. *)
Definition statusOf (taskId : Js.str) (l : list Task) : option Status :=
  option_map status (find (fun task => Js.eqb (id task) taskId) l).

Definition rank (s : Status) : nat :=
  match s with pending => 0 | in_progress => 1 | completed => 2 end.

(** One use of the add-task dialog: open it, type into the form, press
    [Add Task]. *)
Definition createTask (clock : Clock) (edits : list FormEdit) (st : State)
  : State :=
  state (addTask clock
           (fold_left (fun s e => onChange e s) edits
              (setShowAddTask true st))).

Definition createTasks (uses : list (Clock * list FormEdit)) (st : State)
  : State :=
  fold_left (fun s use => createTask (fst use) (snd use) s) uses st.

(** The events of the component. *)
Inductive Operation : Type :=
| OpShowAddTask (b : bool)
| OpChange (e : FormEdit)
| OpAddTask (clock : Clock)
| OpSetFilter (f : Filter)
| OpSetSearchTerm (s : Js.str)
| OpClick (b : Button) (task : Task).

Definition perform (op : Operation) (st : State) : Outcome State :=
  match op with
  | OpShowAddTask b => done (setShowAddTask b st)
  | OpChange e => done (onChange e st)
  | OpAddTask clock => addTask clock st
  | OpSetFilter f => done (setFilter f st)
  | OpSetSearchTerm s => done (setSearchTerm s st)
  | OpClick b task => click b task st
  end.

(** A click is offered on the rows of the displayed list only, and only on
    a button the row renders. *)
Definition offered (toLowerCase : Js.str -> Js.str) (op : Operation)
  (st : State) : Prop :=
  match op with
  | OpClick b task =>
      In task (filterTasks toLowerCase st) /\ onClick b task <> None
  | _ => True
  end.

End TaskManager.

(** ** CalendarView *)
Module CalendarView.

Record Event : Type := mkEvent {
  id : Js.str;
  title : Js.str;
  description : option Js.str;
  start_time : Js.str;
  end_time : Js.str;
  location : option Js.str
}.

(** The [newEvent] form cell. *)
Record NewEvent : Type := mkNewEvent {
  new_title : Js.str;
  new_description : Js.str;
  new_start_time : Js.str;
  new_end_time : Js.str;
  new_location : Js.str
}.

Inductive View : Type := day | week | month.

Record State : Type := mkState {
  events : list Event;
  loading : bool;
  currentDate : Z;
  view : View;
  showAddEvent : bool;
  newEvent : NewEvent
}.

Definition emptyNewEvent : NewEvent :=
  {| new_title := []; new_description := []; new_start_time := [];
     new_end_time := []; new_location := [] |}.

(** The initial values of the [useState] cells; [today] is the
    [new Date()] of the first render. *)
Definition initial (today : Z) : State :=
  {| events := []; loading := true; currentDate := today; view := week;
     showAddEvent := false; newEvent := emptyNewEvent |}.

Definition setEvents (f : list Event -> list Event) (st : State) : State :=
  {| events := f (events st); loading := loading st;
     currentDate := currentDate st; view := view st;
     showAddEvent := showAddEvent st; newEvent := newEvent st |}.

Definition setNewEvent (f : NewEvent -> NewEvent) (st : State) : State :=
  {| events := events st; loading := loading st;
     currentDate := currentDate st; view := view st;
     showAddEvent := showAddEvent st; newEvent := f (newEvent st) |}.

Definition setShowAddEvent (b : bool) (st : State) : State :=
  {| events := events st; loading := loading st;
     currentDate := currentDate st; view := view st;
     showAddEvent := b; newEvent := newEvent st |}.

Definition addEvent (now : Z) (st : State) : Outcome State :=
  if negb (Js.truthy (Js.trim (new_title (newEvent st))))
     || negb (Js.truthy (new_start_time (newEvent st)))
     || negb (Js.truthy (new_end_time (newEvent st)))
  then done st
  else
    let event :=
      {| id := Js.toString now;
         title := new_title (newEvent st);
         description := Some (new_description (newEvent st));
         start_time := new_start_time (newEvent st);
         end_time := new_end_time (newEvent st);
         location := Some (new_location (newEvent st)) |} in
    done (setShowAddEvent false
            (setNewEvent (fun _ => emptyNewEvent)
               (setEvents (fun prev => prev ++ [event]) st))).

(** The end of the event lies before its start.  Both fields hold the
    value of a [datetime-local] input, [YYYY-MM-DDTHH:mm], on which the
    order of strings is the order of time. *)
Definition endsBeforeStart (e : Event) : bool :=
  Js.ltb (end_time e) (start_time e).

(** A form filled in with a meeting that ends an hour before it starts. *)
Definition backwardsMeeting : NewEvent :=
  {| new_title := Js.lit "Team Meeting";
     new_description := [];
     new_start_time := Js.lit "2024-01-16T10:00";
     new_end_time := Js.lit "2024-01-16T09:00";
     new_location := [] |}.

Section Listing.

(** [Date.prototype.toISOString] of the host language. *)
Variable toISOString : Z -> Js.str.

(** The events listed in the column of a day. *)
Definition getEventsForDate (date : Z) (st : State) : list Event :=
  let dateStr := Js.beforeFirst 84 (toISOString date) in
  filter (fun event => Js.startsWith (start_time event) dateStr)
    (events st).

End Listing.

End CalendarView.

(** ** Dashboard *)
Module Dashboard.

Record Stats : Type := mkStats {
  pendingTasks : Z;
  completedToday : Z;
  todayEvents : Z;
  urgentTasks : Z
}.

(** Suggestion identifiers are the integral numbers of the demo data. *)
Record Suggestion : Type := mkSuggestion {
  id : Z;
  type : Js.str;
  title : Js.str;
  description : Js.str;
  priority : TaskManager.Priority
}.

Record State : Type := mkState {
  stats : Stats;
  suggestions : list Suggestion;
  loading : bool
}.

Definition initial : State :=
  {| stats := {| pendingTasks := 0; completedToday := 0; todayEvents := 0;
                 urgentTasks := 0 |};
     suggestions := []; loading := true |}.

Definition setStats (s : Stats) (st : State) : State :=
  {| stats := s; suggestions := suggestions st; loading := loading st |}.

Definition setSuggestions (f : list Suggestion -> list Suggestion)
  (st : State) : State :=
  {| stats := stats st; suggestions := f (suggestions st);
     loading := loading st |}.

Definition setLoading (b : bool) (st : State) : State :=
  {| stats := stats st; suggestions := suggestions st; loading := b |}.

Definition mockSuggestions : list Suggestion :=
  [ {| id := 1; type := Js.lit "schedule_task";
       title := Js.lit "Schedule high-priority task";
       description :=
         Js.lit "You have a free slot at 2 PM to work on " ++ [34%N]
         ++ Js.lit "Quarterly Report" ++ [34%N];
       priority := TaskManager.high |};
    {| id := 2; type := Js.lit "break_reminder";
       title := Js.lit "Take a break";
       description :=
         Js.lit
           "You've been working for 2 hours. Consider a 15-minute break.";
       priority := TaskManager.medium |};
    {| id := 3; type := Js.lit "priority_review";
       title := Js.lit "Review task priorities";
       description :=
         Js.lit
           "You have 5 high-priority tasks. Consider redistributing priorities.";
       priority := TaskManager.low |} ].

(** [fetchFailure] is the rejection of one of the two [fetch] calls, if
    any. *)
Definition fetchDashboardData (fetchFailure : option Error) (st : State)
  : Outcome State :=
  match fetchFailure with
  | None =>
      done (setLoading false
              (setSuggestions (fun _ => mockSuggestions)
                 (setStats {| pendingTasks := 8; completedToday := 3;
                              todayEvents := 4; urgentTasks := 2 |} st)))
  | Some e => {| state := setLoading false st; raised := Some e |}
  end.

(** The line [console.log] prints in [handleSuggestionAction]. *)
Definition actionLogLine (suggestionId : Z) (action : Js.str) : Js.str :=
  Js.lit "Suggestion " ++ Js.toString suggestionId ++ Js.lit " " ++ action.

Definition handleSuggestionAction (suggestionId : Z) (action : Js.str)
  (st : State) : Outcome State :=
  done (setSuggestions
          (fun prev => filter (fun s => negb (Z.eqb (id s) suggestionId)) prev)
          st).

(** The two action names the buttons pass. *)
Definition accept : Js.str := Js.lit "accept".

Definition dismiss : Js.str := Js.lit "dismiss".

End Dashboard.

(** ** The page

    The components are mounted side by side; a handler of one component
    reaches only the setters of that component's own cells. *)
Record Page : Type := mkPage {
  dashboard : Dashboard.State;
  taskManager : TaskManager.State;
  calendarView : CalendarView.State
}.

Definition onDashboard
  (handler : Dashboard.State -> Outcome Dashboard.State) (p : Page)
  : Outcome Page :=
  let out := handler (dashboard p) in
  {| state := {| dashboard := state out; taskManager := taskManager p;
                 calendarView := calendarView p |};
     raised := raised out |}.

(** ** ChatInterface *)
Module ChatInterface.

Inductive Sender : Type := sender_user | sender_agent.

Record Message : Type := mkMessage {
  id : Js.str;
  content : Js.str;
  sender : Sender;
  agent : option Js.str;
  timestamp : Z
}.

Record State : Type := mkState {
  messages : list Message;
  inputValue : Js.str;
  isLoading : bool
}.

Definition initial : State :=
  {| messages := []; inputValue := []; isLoading := false |}.

(** The body of a successful reply of [/api/chat]. *)
Record ChatData : Type := mkChatData {
  data_response : Js.str;
  data_agent : option Js.str
}.

(** What the request to [/api/chat] comes to: [fetch] rejects, or it
    resolves to a response with its [ok] flag, whose body either throws
    when it is read ([json()] rejects, or the value read has no fields) or
    yields the data. *)
Inductive ChatFetch : Type :=
| Rejected (e : Error)
| Responded (ok : bool) (json : Error + ChatData).

Definition welcome (userName : Js.str) (today : Z) : Message :=
  {| id := Js.lit "1";
     content :=
       Js.lit "Hello " ++ userName
       ++ Js.lit "! I'm FlowMind AI, your proactive productivity assistant. I can help you manage tasks, schedule events, answer questions, and provide insights. What would you like to work on today?";
     sender := sender_agent;
     agent := Some (Js.lit "MindFlow");
     timestamp := today |}.

Definition bullet : Js.str := [8226%N; 32%N].

Definition newline : Js.str := [10%N].

(** The text of [fallbackMessage]. *)
Definition fallbackContent : Js.str :=
  Js.lit "I'm experiencing some technical difficulties right now, but I'm here to help! You can ask me to:"
  ++ newline ++ newline
  ++ bullet ++ Js.lit "Add, complete, or list tasks" ++ newline
  ++ bullet ++ Js.lit "Schedule events or check your calendar" ++ newline
  ++ bullet ++ Js.lit "Explain concepts or provide information" ++ newline
  ++ bullet ++ Js.lit "Give you productivity suggestions"
  ++ newline ++ newline
  ++ Js.lit "What would you like to try?".

Definition fallbackMessage (after : Clock) : Message :=
  {| id := Js.toString (now after + 1);
     content := fallbackContent;
     sender := sender_agent;
     agent := Some (Js.lit "MindFlow");
     timestamp := date after |}.

(** What the [try] block of [sendMessage] comes to: the data of the reply
    or the error thrown. *)
Definition awaitReply (net : ChatFetch) : Error + ChatData :=
  match net with
  | Rejected e => inl e
  | Responded false _ => inl (OtherError (Js.lit "Failed to get response"))
  | Responded true (inl e) => inl e
  | Responded true (inr data) => inr data
  end.

(** [before] is the clock when the handler starts, [after] the clock when
    the request has settled. *)
Definition sendMessage (before after : Clock) (net : ChatFetch) (st : State)
  : Outcome State :=
  if negb (Js.truthy (Js.trim (inputValue st))) || isLoading st then done st
  else
    let userMessage :=
      {| id := Js.toString (now before);
         content := inputValue st;
         sender := sender_user;
         agent := None;
         timestamp := date before |} in
    let sent := messages st ++ [userMessage] in
    match awaitReply net with
    | inr data =>
        let agentMessage :=
          {| id := Js.toString (now after + 1);
             content := data_response data;
             sender := sender_agent;
             agent := data_agent data;
             timestamp := date after |} in
        done {| messages := sent ++ [agentMessage]; inputValue := [];
                isLoading := false |}
    | inl error =>
        {| state := {| messages := sent ++ [fallbackMessage after];
                       inputValue := []; isLoading := false |};
           raised := Some error |}
    end.

Definition setInputValue (value : Js.str) (st : State) : State :=
  {| messages := messages st; inputValue := value;
     isLoading := isLoading st |}.

(** One exchange: the user types a text and sends it; the request settles
    before the next event. *)
Record Exchange : Type := mkExchange {
  typed : Js.str;
  sent_at : Clock;
  settled_at : Clock;
  reply : ChatFetch
}.

Definition exchange (x : Exchange) (st : State) : State :=
  state (sendMessage (sent_at x) (settled_at x) (reply x)
           (setInputValue (typed x) st)).

Definition converse (xs : list Exchange) (st : State) : State :=
  fold_left (fun s x => exchange x s) xs st.

(** The exchanges whose text passes the guard of [sendMessage]. *)
Definition isSent (x : Exchange) : bool :=
  Js.truthy (Js.trim (typed x)).

(** The senders of one turn of the conversation. *)
Definition turn : list Sender := [sender_user; sender_agent].

End ChatInterface.

(** ** The MindFlow orchestrator

    The repository ships no routing code: the chat component posts the
    message to [/api/chat] and the backend behind it is absent.  The
    router is therefore taken from the specification. *)
Module Orchestrator.

Inductive Agent : Type := MindFlow | TaskFlow | CalendarFlow | InfoFlow.

Record Response : Type := mkResponse {
  response : Js.str;
  agent : Agent
}.

(** Modelled from the spec: the fixed priority order in which [route]
    tries the Worker Agents; the routing code is missing from the
    repository. *)
Definition priorityOrder : list Agent := [TaskFlow; CalendarFlow; InfoFlow].

(** Modelled from the spec: the mapping table of recognised intent
    patterns of section 4.2, one phrase per alternative; the agents are
    missing from the repository.  The date of [what do I have on <date>]
    is left out of the phrase, and [general question] names no phrase.
    The table is an instance: the router below takes any table. *)
Definition specPatterns (a : Agent) : list Js.str :=
  match a with
  | TaskFlow =>
      map Js.lit
        ["add task"; "create task"; "complete task"; "delete task";
         "list tasks"; "show tasks"]%string
  | CalendarFlow =>
      map Js.lit
        ["schedule event"; "add event"; "what do I have"; "list events"]%string
  | InfoFlow => map Js.lit ["summarize"; "explain"]%string
  | MindFlow => []
  end.

(** Modelled from the spec: the generic text an unclassified failure
    degrades to. *)
Definition troubleText : Js.str := Js.lit "I'm having trouble right now".

Section Routing.

(** The pattern table is extensible; the Worker Agents are total functions
    from intent text and context to response text; [queryLLM] is the
    fallible tool MindFlow answers with when no agent matches. *)
Variable Ctx : Type.
Variable patterns : Agent -> list Js.str.
Variable worker : Agent -> Js.str -> Ctx -> Js.str.
Variable queryLLM : Js.str -> Error + Js.str.
Variable persona : Js.str.

(** Modelled from the spec: a message matches an agent when it contains
    one of the agent's patterns. *)
Definition matches (a : Agent) (message : Js.str) : bool :=
  existsb (Js.includes message) (patterns a).

(** Modelled from the spec: first pattern match in declaration order wins;
    with no match MindFlow answers itself. *)
Definition classify (message : Js.str) : Agent :=
  match find (fun a => matches a message) priorityOrder with
  | Some a => a
  | None => MindFlow
  end.

(** Modelled from the spec: [route(message, context)], missing from the
    repository. *)
Definition route (message : Js.str) (context : Ctx) : Response :=
  match classify message with
  | MindFlow =>
      {| response :=
           match queryLLM (persona ++ message) with
           | inr text => text
           | inl _ => troubleText
           end;
         agent := MindFlow |}
  | a => {| response := worker a message context; agent := a |}
  end.

End Routing.

End Orchestrator.

(** ** VideoReports *)
Module VideoReports.

(** [created_at] keeps the instant of its ISO string, as for tasks. *)
Record VideoReport : Type := mkVideoReport {
  id : Js.str;
  title : Js.str;
  description : Js.str;
  video_url : Js.str;
  thumbnail_url : Js.str;
  duration : Z;
  created_at : Z;
  report_type : Js.str
}.

Record State : Type := mkState {
  reports : list VideoReport;
  loading : bool;
  generating : bool;
  selectedReport : option VideoReport
}.

Definition initial : State :=
  {| reports := []; loading := false; generating := false;
     selectedReport := None |}.

Definition thumbnail : Js.str :=
  Js.lit "https://images.unsplash.com/photo-1611224923853-80b023f02d71?w=400&h=225&fit=crop".

Definition mockReports : list VideoReport :=
  [ {| id := Js.lit "1";
       title := Js.lit "Daily Productivity Report - January 16";
       description :=
         Js.lit "Your personalized daily summary with achievements and upcoming priorities";
       video_url := Js.lit "https://example.com/video1.mp4";
       thumbnail_url := thumbnail; duration := 45;
       created_at := 1705428000000; report_type := Js.lit "daily" |};
    {| id := Js.lit "2";
       title := Js.lit "Weekly Summary - Week of January 8";
       description :=
         Js.lit "Comprehensive weekly overview of your productivity and accomplishments";
       video_url := Js.lit "https://example.com/video2.mp4";
       thumbnail_url := thumbnail; duration := 72;
       created_at := 1705251600000; report_type := Js.lit "weekly" |};
    {| id := Js.lit "3";
       title := Js.lit "Motivational Boost - Keep Going!";
       description :=
         Js.lit "Encouraging message based on your recent achievements and goals";
       video_url := Js.lit "https://example.com/video3.mp4";
       thumbnail_url := thumbnail; duration := 28;
       created_at := 1705050000000; report_type := Js.lit "motivational" |} ].

Definition fetchReports (st : State) : Outcome State :=
  done {| reports := mockReports; loading := false;
          generating := generating st;
          selectedReport := selectedReport st |}.

(** The body of a successful reply of [/api/video-report]. *)
Record ReportData : Type := mkReportData {
  data_video_url : Js.str
}.

(** What the request comes to, as for the chat request. *)
Inductive ReportFetch : Type :=
| Rejected (e : Error)
| Responded (ok : bool) (json : Error + ReportData).

(** What the [try] block of [generateReport] reads from the request: the
    data, or the error thrown. *)
Definition awaitReport (net : ReportFetch) : Error + ReportData :=
  match net with
  | Rejected e => inl e
  | Responded true (inl e) => inl e
  | Responded true (inr data) => inr data
  | Responded false _ =>
      inl (OtherError (Js.lit "Failed to generate video report"))
  end.

(** What a run of [generateReport] leaves: the state, the error caught,
    and the text of the [alert] shown, if any. *)
Record Generated : Type := mkGenerated {
  outcome : Outcome State;
  alerted : option Js.str
}.

Section Generate.

(** [String.prototype.toUpperCase] and [Date.prototype.toLocaleDateString]
    of the host. *)
Variable toUpperCase : Js.str -> Js.str.
Variable toLocaleDateString : Z -> Js.str.

(** [clock] gives the [Date.now()] of the identifier and the [new Date()]
    of the title, [stamp] the [new Date()] of [created_at]. *)
Definition generateReport (clock : Clock) (stamp : Z) (net : ReportFetch)
  (reportType : Js.str) (st : State) : Generated :=
  match awaitReport net with
  | inr data =>
      let newReport :=
        {| id := Js.toString (now clock);
           title :=
             toUpperCase (Js.charAt0 reportType) ++ Js.slice1 reportType
             ++ Js.lit " Report - " ++ toLocaleDateString (date clock);
           description :=
             Js.lit "Your personalized AI-generated video report";
           video_url := data_video_url data;
           thumbnail_url := thumbnail;
           duration := 45;
           created_at := stamp;
           report_type := reportType |} in
      {| outcome :=
           done {| reports := newReport :: reports st;
                   loading := loading st; generating := false;
                   selectedReport := selectedReport st |};
         alerted := None |}
  | inl error =>
      {| outcome :=
           {| state := {| reports := reports st; loading := loading st;
                          generating := false;
                          selectedReport := selectedReport st |};
              raised := Some error |};
         alerted :=
           Some (Js.lit "Failed to generate video report. Please try again.") |}
  end.

End Generate.


End VideoReports.

(** * Properties *)

(** ** JavaScript strings *)
Module JsFacts.
Import Js.

Lemma eqb_eq (x y : str) : eqb x y = true <-> x = y.
Proof.
  revert y; induction x as [|c x IH]; intros [|d y]; simpl;
    try (split; [discriminate | congruence]); try tauto.
  rewrite andb_true_iff, N.eqb_eq, IH.
  split; [intros [-> ->]; reflexivity | intros H; inversion H; auto].
Qed.

Lemma eqb_refl (x : str) : eqb x x = true.
Proof. apply eqb_eq; reflexivity. Qed.

Lemma trimStart_nil_iff (s : str) :
  trimStart s = [] <-> forallb isWhiteSpace s = true.
Proof.
  induction s as [|c s IH]; simpl; [tauto|].
  destruct (isWhiteSpace c); simpl; [exact IH|].
  split; discriminate.
Qed.

(** A string is blank for [!s.trim()] exactly when every code unit of it
    is white space. *)
Lemma trim_nil_iff (s : str) :
  trim s = [] <-> forallb isWhiteSpace s = true.
Proof.
  unfold trim, trimEnd. split.
  - intros H.
    assert (E : trimStart (rev (trimStart s)) = []).
    { rewrite <- (rev_involutive (trimStart (rev (trimStart s)))), H.
      reflexivity. }
    apply trimStart_nil_iff in E.
    rewrite forallb_forall in E.
    destruct (trimStart s) as [|c r] eqn:Es.
    + apply trimStart_nil_iff; exact Es.
    + exfalso.
      assert (Hc : isWhiteSpace c = true).
      { apply E. rewrite <- in_rev. left; reflexivity. }
      clear E H. induction s as [|d s IH]; simpl in Es; [discriminate|].
      destruct (isWhiteSpace d) eqn:Ed; [auto|].
      inversion Es; subst. congruence.
  - intros H. apply trimStart_nil_iff in H. rewrite H. reflexivity.
Qed.

Lemma truthy_trim (s : str) :
  truthy (trim s) = true <-> trim s <> [].
Proof.
  destruct (trim s); simpl; split; congruence.
Qed.

End JsFacts.

(** ** TaskManager: creating and completing tasks *)
Module TaskFacts.
Import TaskManager.

Lemma State_eta (st : State) :
  {| tasks := tasks st; loading := loading st; filter := filter st;
     searchTerm := searchTerm st; showAddTask := showAddTask st;
     newTask := newTask st |} = st.
Proof. destruct st; reflexivity. Qed.

Lemma withStatus_same (task : Task) : withStatus task (status task) = task.
Proof. destruct task; reflexivity. Qed.

Lemma tasks_updateTaskStatus (taskId : Js.str) (s : Status) (st : State) :
  tasks (state (updateTaskStatus taskId s st))
  = map (fun task => if Js.eqb (id task) taskId then withStatus task s
                     else task) (tasks st).
Proof. reflexivity. Qed.

Lemma map_id_updateTaskStatus (taskId : Js.str) (s : Status) (st : State) :
  map id (tasks (state (updateTaskStatus taskId s st))) = map id (tasks st).
Proof.
  rewrite tasks_updateTaskStatus, map_map. apply map_ext.
  intros task. destruct (Js.eqb (id task) taskId); reflexivity.
Qed.

(** Setting a status twice is setting it once, whatever the identifier. *)
Lemma updateTaskStatus_twice (taskId : Js.str) (s : Status) (st : State) :
  updateTaskStatus taskId s (state (updateTaskStatus taskId s st))
  = updateTaskStatus taskId s st.
Proof.
  unfold updateTaskStatus, done, setTasks; simpl. do 2 f_equal.
  rewrite map_map. apply map_ext. intros task.
  destruct (Js.eqb (id task) taskId) eqn:E; simpl; rewrite E; reflexivity.
Qed.

(** An update that changes no task leaves the state as it is. *)
Lemma updateTaskStatus_fixed (taskId : Js.str) (s : Status) (st : State) :
  (forall task, In task (tasks st) -> id task = taskId -> status task = s) ->
  updateTaskStatus taskId s st = done st.
Proof.
  intros H. unfold updateTaskStatus, done, setTasks. f_equal.
  rewrite <- (State_eta st) at 7. f_equal.
  rewrite <- (map_id (tasks st)) at 2. apply map_ext_in.
  intros task Hin. destruct (Js.eqb (id task) taskId) eqn:E; [|reflexivity].
  apply JsFacts.eqb_eq in E. rewrite <- (H task Hin E).
  apply withStatus_same.
Qed.

(** C3.  Completing a task is idempotent: for every state and every task
    identifier present in its task list, completing the task twice in
    sequence leaves the same state as completing it once, neither call
    raises an error, and when the task named is already completed the
    operation changes nothing. *)
Theorem completeTask_idempotent (st : State) (taskId : Js.str) :
  In taskId (map id (tasks st)) ->
  completeTask taskId (state (completeTask taskId st)) = completeTask taskId st
  /\ raised (completeTask taskId st) = None
  /\ ((forall task, In task (tasks st) -> id task = taskId ->
       status task = completed) ->
      completeTask taskId st = done st).
Proof.
  intros _. split; [apply updateTaskStatus_twice|].
  split; [reflexivity|]. apply updateTaskStatus_fixed.
Qed.

Lemma completeTask_idempotent_witness :
  In (Js.lit "4") (map id mockTasks)
  /\ completeTask (Js.lit "4")
       (state (completeTask (Js.lit "4") (state (fetchTasks initial))))
     = completeTask (Js.lit "4") (state (fetchTasks initial))
  /\ completeTask (Js.lit "4") (state (fetchTasks initial))
     = done (state (fetchTasks initial)).
Proof.
  assert (Hin : In (Js.lit "4") (map id mockTasks)) by (vm_compute; tauto).
  destruct (completeTask_idempotent (state (fetchTasks initial))
              (Js.lit "4") Hin) as [Htwice [_ Hfixed]].
  split; [exact Hin|]. split; [exact Htwice|].
  apply Hfixed. intros task Hmem Hid. simpl in Hmem.
  repeat (destruct Hmem as [<- | Hmem]; [vm_compute in Hid |- *;
            first [reflexivity | discriminate]|]).
  contradiction.
Defined.

(** C4, as stated: completing a task whose identifier is not in the list
    would raise [NotFoundError].  With the demo tasks loaded, identifier
    ['99'] names no task, and the operation raises nothing. *)
Lemma completeTask_unknown_id_counterexample :
  ~ In (Js.lit "99") (map id (tasks (state (fetchTasks initial))))
  /\ raised (completeTask (Js.lit "99") (state (fetchTasks initial)))
     <> Some NotFoundError.
Proof.
  split.
  - vm_compute. intuition discriminate.
  - vm_compute. discriminate.
Qed.

(** C4, amended.  Completing a task whose identifier is not in the task
    list succeeds silently: the state is unchanged and no error is
    raised. *)
Theorem completeTask_unknown_id_silent (st : State) (taskId : Js.str) :
  ~ In taskId (map id (tasks st)) ->
  state (completeTask taskId st) = st
  /\ raised (completeTask taskId st) = None.
Proof.
  intros Hnot. split; [|reflexivity].
  unfold completeTask. rewrite updateTaskStatus_fixed; [reflexivity|].
  intros task Hin E. exfalso. apply Hnot. rewrite <- E. apply in_map, Hin.
Qed.

Lemma completeTask_unknown_id_silent_witness :
  state (completeTask (Js.lit "99") (state (fetchTasks initial)))
  = state (fetchTasks initial)
  /\ raised (completeTask (Js.lit "99") (state (fetchTasks initial))) = None.
Proof.
  apply (completeTask_unknown_id_silent (state (fetchTasks initial))
           (Js.lit "99")).
  vm_compute. intuition discriminate.
Defined.

(** *** Creating a task *)

Lemma addTask_blank (clock : Clock) (st : State) :
  Js.trim (new_title (newTask st)) = [] -> addTask clock st = done st.
Proof.
  intros E. unfold addTask. rewrite E. reflexivity.
Qed.

Lemma addTask_tasks (clock : Clock) (st : State) :
  Js.trim (new_title (newTask st)) <> [] ->
  tasks (state (addTask clock st))
  = {| id := Js.toString (now clock);
       title := new_title (newTask st);
       description := Some (new_description (newTask st));
       priority := new_priority (newTask st);
       status := pending;
       due_date := if Js.truthy (new_due_date (newTask st))
                   then Some (new_due_date (newTask st)) else None;
       created_at := date clock |} :: tasks st.
Proof.
  intros H. apply JsFacts.truthy_trim in H. unfold addTask.
  rewrite H. reflexivity.
Qed.

(** The priority field of the form is at its default in the initial state
    and after every task added, and no input but the priority [select]
    moves it. *)
Lemma new_priority_initial : new_priority (newTask initial) = medium.
Proof. reflexivity. Qed.

Lemma new_priority_after_addTask (clock : Clock) (st : State) :
  Js.trim (new_title (newTask st)) <> [] ->
  new_priority (newTask (state (addTask clock st))) = medium.
Proof.
  intros H. apply JsFacts.truthy_trim in H. unfold addTask.
  rewrite H. reflexivity.
Qed.

Lemma new_priority_kept (edits : list FormEdit) (st : State) :
  forallb (fun e => negb (isPriorityEdit e)) edits = true ->
  new_priority (newTask (fold_left (fun s e => onChange e s) edits st))
  = new_priority (newTask st).
Proof.
  revert st; induction edits as [|e edits IH]; intros st H; simpl in *.
  - reflexivity.
  - apply andb_true_iff in H. destruct H as [He H].
    rewrite (IH _ H). destruct e; simpl in *; congruence.
Qed.

(** C5.  Adding a task from a form whose title is not blank puts one new
    task in the list; its title is the one typed, its status is [pending],
    its priority is the one of the form, hence [medium] when the priority
    field was left at its default; no error is raised. *)
Theorem addTask_pending_medium (st : State) (clock : Clock) :
  Js.trim (new_title (newTask st)) <> [] ->
  exists task,
    tasks (state (addTask clock st)) = task :: tasks st
    /\ title task = new_title (newTask st)
    /\ status task = pending
    /\ priority task = new_priority (newTask st)
    /\ (new_priority (newTask st) = medium -> priority task = medium)
    /\ raised (addTask clock st) = None.
Proof.
  intros H. eexists. split; [apply (addTask_tasks clock st H)|].
  simpl. repeat split; auto.
  apply JsFacts.truthy_trim in H. unfold addTask. rewrite H. reflexivity.
Qed.

Lemma addTask_pending_medium_witness :
  exists task,
    tasks (state (addTask (mkClock 1705400000000 1705400000000)
                    (onChange (EditTitle (Js.lit "Review reports")) initial)))
    = [task]
    /\ title task = Js.lit "Review reports"
    /\ status task = pending
    /\ priority task = medium.
Proof.
  destruct (addTask_pending_medium
              (onChange (EditTitle (Js.lit "Review reports")) initial)
              (mkClock 1705400000000 1705400000000))
    as [task [Ht [Hti [Hs [_ [Hp _]]]]]].
  - vm_compute. discriminate.
  - exists task. repeat split; [exact Ht | exact Hti | exact Hs |].
    apply Hp. reflexivity.
Defined.

(** *** The order of the displayed list *)

Lemma tasks_onChange (edits : list FormEdit) (st : State) :
  tasks (fold_left (fun s e => onChange e s) edits st) = tasks st.
Proof.
  revert st; induction edits as [|e edits IH]; intros st; simpl;
    [reflexivity|]. rewrite IH. reflexivity.
Qed.

(** A use of the dialog leaves the list alone or puts one task, stamped
    with the clock, in front of it. *)
Lemma createTask_tasks (clock : Clock) (edits : list FormEdit) (st : State) :
  tasks (createTask clock edits st) = tasks st
  \/ exists task,
       tasks (createTask clock edits st) = task :: tasks st
       /\ created_at task = date clock.
Proof.
  unfold createTask.
  set (st1 := fold_left (fun s e => onChange e s) edits
                (setShowAddTask true st)).
  assert (E : tasks st1 = tasks st) by (unfold st1; rewrite tasks_onChange; reflexivity).
  destruct (Js.trim (new_title (newTask st1))) as [|c r] eqn:Ht.
  - left. rewrite (addTask_blank clock st1 Ht). exact E.
  - right. eexists. split.
    + rewrite addTask_tasks by (rewrite Ht; discriminate).
      rewrite E. reflexivity.
    + reflexivity.
Qed.

Lemma StronglySorted_map_filter {A : Type} (R : Z -> Z -> Prop)
  (f : A -> Z) (p : A -> bool) (l : list A) :
  StronglySorted R (map f l) -> StronglySorted R (map f (List.filter p l)).
Proof.
  induction l as [|a l IH]; simpl; intros H; [constructor|].
  apply StronglySorted_inv in H. destruct H as [Hs Hall].
  destruct (p a); simpl; [|auto].
  constructor; [auto|].
  rewrite Forall_forall in *. intros x Hx. apply Hall.
  apply in_map_iff in Hx. destruct Hx as [y [<- Hy]].
  apply filter_In in Hy. apply in_map, Hy.
Qed.

Lemma createTasks_newerFirst (uses : list (Clock * list FormEdit)) :
  forall st : State,
    StronglySorted Z.le (map (fun use => date (fst use)) uses) ->
    StronglySorted newerFirst (map created_at (tasks st)) ->
    (forall use task, In use uses -> In task (tasks st) ->
                      (created_at task <= date (fst use))%Z) ->
    StronglySorted newerFirst (map created_at (tasks (createTasks uses st))).
Proof.
  induction uses as [|use uses IH]; intros st Hclock Hsorted Hbound; simpl.
  - exact Hsorted.
  - apply StronglySorted_inv in Hclock. destruct Hclock as [Hrest Hle].
    rewrite Forall_forall in Hle.
    apply IH; [exact Hrest | |].
    + destruct (createTask_tasks (fst use) (snd use) st)
        as [E | [task [E Hd]]]; rewrite E; [exact Hsorted|].
      simpl. constructor; [exact Hsorted|].
      rewrite Forall_forall. intros x Hx.
      apply in_map_iff in Hx. destruct Hx as [old [<- Hold]].
      unfold newerFirst. rewrite Hd. apply Hbound; [left; reflexivity|auto].
    + intros use' task Huse Htask.
      destruct (createTask_tasks (fst use) (snd use) st)
        as [E | [new [E Hd]]]; rewrite E in Htask.
      * apply Hbound; [right; exact Huse | exact Htask].
      * destruct Htask as [<- | Htask].
        -- rewrite Hd. apply Hle.
           apply (in_map (fun u => date (fst u))), Huse.
        -- apply Hbound; [right; exact Huse | exact Htask].
Qed.

Lemma filter_twice {A : Type} (p q : A -> bool) (l : list A) :
  List.filter p (List.filter q l) = List.filter (fun x => q x && p x) l.
Proof.
  induction l as [|a l IH]; simpl; [reflexivity|].
  destruct (q a); simpl; [destruct (p a); simpl; congruence | exact IH].
Qed.

Lemma filterTasks_filter (toLowerCase : Js.str -> Js.str) (st : State) :
  exists p : Task -> bool, filterTasks toLowerCase st = List.filter p (tasks st).
Proof.
  unfold filterTasks.
  destruct (filter st) as [|s]; destruct (Js.truthy (searchTerm st)).
  - eexists; reflexivity.
  - exists (fun _ => true). symmetry. apply forallb_filter_id.
    apply forallb_forall; reflexivity.
  - exists (fun task => Status_eqb (status task) s
                        && matchesSearch toLowerCase (searchTerm st) task).
    apply filter_twice.
  - eexists; reflexivity.
Qed.

Lemma filterTasks_In (toLowerCase : Js.str -> Js.str) (st : State)
  (task : Task) :
  In task (filterTasks toLowerCase st) -> In task (tasks st).
Proof.
  destruct (filterTasks_filter toLowerCase st) as [p ->].
  intros H. apply filter_In in H. apply H.
Qed.

(** The demo tasks are in neither order of creation time, so the lists
    the order is stated for are the ones the dialog builds. *)
Remark mockTasks_unordered :
  ~ Sorted Z.le (map created_at mockTasks)
  /\ ~ Sorted newerFirst (map created_at mockTasks).
Proof.
  split; intros H; vm_compute in H.
  - apply Sorted_inv in H. destruct H as [_ H].
    apply HdRel_inv in H. vm_compute in H. apply H. reflexivity.
  - do 3 (apply Sorted_inv in H; destruct H as [H _]).
    apply Sorted_inv in H. destruct H as [_ H].
    apply HdRel_inv in H. vm_compute in H. apply H. reflexivity.
Qed.

(** C7, as stated: the displayed list would be sorted by creation time
    ascending.  Two tasks created one minute apart are displayed with the
    later one first. *)
Lemma listing_ascending_counterexample :
  Sorted Z.le [1705400000000%Z; 1705400060000%Z]
  /\ ~ Sorted Z.le
       (map created_at
          (filterTasks Js.asciiToLowerCase
             (createTasks
                [ (mkClock 1705400000000 1705400000000,
                   [EditTitle (Js.lit "Review reports")]);
                  (mkClock 1705400060000 1705400060000,
                   [EditTitle (Js.lit "Call client")]) ]
                initial))).
Proof.
  split.
  - repeat constructor. lia.
  - intros H. vm_compute in H.
    apply Sorted_inv in H. destruct H as [_ H].
    apply HdRel_inv in H. vm_compute in H. apply H. reflexivity.
Qed.

(** C7, amended.  For every task list built from the empty list by
    successive uses of the add-task dialog under a clock that does not go
    back, the list displayed after any status filter and search term is
    sorted by creation time descending: every new task is put in front. *)
Theorem listing_newest_first (toLowerCase : Js.str -> Js.str)
  (uses : list (Clock * list FormEdit)) (f : Filter) (term : Js.str) :
  Sorted Z.le (map (fun use => date (fst use)) uses) ->
  Sorted newerFirst
    (map created_at
       (filterTasks toLowerCase
          (setSearchTerm term (setFilter f (createTasks uses initial))))).
Proof.
  intros Hclock. apply StronglySorted_Sorted.
  destruct (filterTasks_filter toLowerCase
              (setSearchTerm term (setFilter f (createTasks uses initial))))
    as [p ->].
  apply StronglySorted_map_filter. simpl.
  apply createTasks_newerFirst.
  - apply Sorted_StronglySorted; [|exact Hclock].
    intros x y z; apply Z.le_trans.
  - constructor.
  - intros use task _ [].
Qed.

Lemma listing_newest_first_witness :
  Sorted newerFirst
    (map created_at
       (filterTasks Js.asciiToLowerCase
          (setSearchTerm (Js.lit "re")
             (setFilter (only pending)
                (createTasks
                   [ (mkClock 1705400000000 1705400000000,
                      [EditTitle (Js.lit "Review reports")]);
                     (mkClock 1705400060000 1705400060000,
                      [EditTitle (Js.lit "Call client");
                       EditDescription (Js.lit "Prepare the figures")]) ]
                   initial))))).
Proof.
  apply (listing_newest_first Js.asciiToLowerCase
           [ (mkClock 1705400000000 1705400000000,
              [EditTitle (Js.lit "Review reports")]);
             (mkClock 1705400060000 1705400060000,
              [EditTitle (Js.lit "Call client");
               EditDescription (Js.lit "Prepare the figures")]) ]
           (only pending) (Js.lit "re")).
  simpl. repeat constructor. lia.
Defined.

(** *** Status transitions *)

Lemma statusOf_In (taskId : Js.str) (l : list Task) (s : Status) :
  statusOf taskId l = Some s -> In taskId (map id l).
Proof.
  unfold statusOf. destruct (find _ l) as [task|] eqn:E; [|discriminate].
  intros _. apply find_some in E. destruct E as [Hin Hid].
  apply JsFacts.eqb_eq in Hid. rewrite <- Hid. apply in_map, Hin.
Qed.

Lemma statusOf_unique (l : list Task) (task : Task) :
  NoDup (map id l) -> In task l -> statusOf (id task) l = Some (status task).
Proof.
  unfold statusOf. induction l as [|a l IH]; simpl; intros Hnd Hin;
    [contradiction|].
  inversion Hnd as [|x xs Hnotin Hnd']; subst.
  destruct (Js.eqb (id a) (id task)) eqn:E.
  - destruct Hin as [-> | Hin]; [reflexivity|].
    apply JsFacts.eqb_eq in E. exfalso. apply Hnotin.
    rewrite E. apply in_map, Hin.
  - destruct Hin as [-> | Hin]; [|auto].
    rewrite JsFacts.eqb_refl in E. discriminate.
Qed.

Lemma statusOf_updateTaskStatus (taskId other : Js.str) (s : Status)
  (st : State) :
  statusOf taskId (tasks (state (updateTaskStatus other s st)))
  = if Js.eqb taskId other
    then option_map (fun _ => s) (statusOf taskId (tasks st))
    else statusOf taskId (tasks st).
Proof.
  rewrite tasks_updateTaskStatus. unfold statusOf.
  induction (tasks st) as [|a l IH]; simpl.
  - destruct (Js.eqb taskId other); reflexivity.
  - destruct (Js.eqb (id a) other) eqn:Eo; simpl;
      destruct (Js.eqb (id a) taskId) eqn:Et; simpl; try exact IH.
    + apply JsFacts.eqb_eq in Eo, Et. subst.
      rewrite JsFacts.eqb_refl. reflexivity.
    + apply JsFacts.eqb_eq in Et. subst.
      destruct (Js.eqb (id a) other); [discriminate | reflexivity].
Qed.

Lemma onClick_id (b : Button) (task : Task) (taskId : Js.str) (s : Status) :
  onClick b task = Some (taskId, s) -> taskId = id task.
Proof.
  destruct b; simpl.
  - intros H; inversion H; reflexivity.
  - destruct (Status_eqb (status task) pending); intros H; inversion H;
      reflexivity.
  - destruct (Status_eqb (status task) in_progress); intros H; inversion H;
      reflexivity.
Qed.

(** What a button does to the status of the task of its own row. *)
Lemma onClick_transition (b : Button) (task : Task) (taskId : Js.str)
  (s : Status) :
  onClick b task = Some (taskId, s) ->
  rank (status task) < rank s
  \/ (b = CheckBox /\ status task = completed /\ s = pending).
Proof.
  destruct b; simpl; destruct (status task); simpl; intros H;
    inversion H; subst; simpl; auto.
Qed.

(** Every event but the adding of a task keeps the identifiers of the
    list. *)
Lemma perform_keeps_ids (op : Operation) (st : State) :
  (forall clock, op <> OpAddTask clock) ->
  map id (tasks (state (perform op st))) = map id (tasks st).
Proof.
  destruct op as [b | e | clock | f | term | b task]; simpl; intros H;
    try reflexivity.
  - exfalso. apply (H clock). reflexivity.
  - unfold click. destruct (onClick b task) as [[other new]|];
      [apply map_id_updateTaskStatus | reflexivity].
Qed.

(** C8.  Under unique task identifiers, whatever event of the component
    is handled, the status of a task either stays, or moves forward in the
    order pending, in_progress, completed, or goes from completed back to
    pending, and the last only by the check box of that very task.  No
    other backward move is reachable. *)
Theorem status_transitions_forward (toLowerCase : Js.str -> Js.str)
  (op : Operation) (st : State) (taskId : Js.str) (s s' : Status) :
  NoDup (map id (tasks st)) ->
  NoDup (map id (tasks (state (perform op st)))) ->
  offered toLowerCase op st ->
  statusOf taskId (tasks st) = Some s ->
  statusOf taskId (tasks (state (perform op st))) = Some s' ->
  s' = s
  \/ rank s < rank s'
  \/ (s = completed /\ s' = pending
      /\ exists task, op = OpClick CheckBox task /\ id task = taskId).
Proof.
  intros Hnd Hnd' Hoff Hs Hs'.
  destruct op as [b | e | clock | f | term | b task]; simpl in *;
    try (left; congruence).
  - (* addTask *)
    destruct (Js.trim (new_title (newTask st))) as [|c r] eqn:Ht.
    + rewrite (addTask_blank clock st Ht) in Hs'. simpl in Hs'.
      left; congruence.
    + assert (Hne : Js.trim (new_title (newTask st)) <> [])
        by (rewrite Ht; discriminate).
      rewrite (addTask_tasks clock st Hne) in Hs', Hnd'.
      simpl in Hnd'. inversion Hnd' as [|x xs Hnotin _]; subst.
      unfold statusOf in Hs'. simpl in Hs'.
      destruct (Js.eqb (Js.toString (now clock)) taskId) eqn:E.
      * apply JsFacts.eqb_eq in E. exfalso. apply Hnotin. rewrite E.
        apply (statusOf_In _ _ Hs).
      * left. unfold statusOf in Hs. congruence.
  - (* a button of a displayed row *)
    destruct Hoff as [Hin Hbutton]. apply filterTasks_In in Hin.
    unfold click in Hs'.
    destruct (onClick b task) as [[other new]|] eqn:Eb; [|contradiction].
    rewrite statusOf_updateTaskStatus in Hs'.
    pose proof (onClick_id _ _ Eb) as ->.
    destruct (Js.eqb taskId (id task)) eqn:E; [|left; congruence].
    apply JsFacts.eqb_eq in E. subst taskId.
    rewrite (statusOf_unique _ _ Hnd Hin) in Hs, Hs'. simpl in Hs'.
    inversion Hs; inversion Hs'; subst s s'.
    destruct (onClick_transition _ _ Eb) as [Hfw | [-> [Hc Hp]]].
    + right; left; exact Hfw.
    + right; right. repeat split; auto. exists task; auto.
Qed.

Lemma status_transitions_forward_witness :
  let row := nth 3 mockTasks (mkTask [] [] None low pending None 0) in
  let st := state (fetchTasks initial) in
  statusOf (id row) (tasks st) = Some completed
  /\ statusOf (id row) (tasks (state (perform (OpClick CheckBox row) st)))
     = Some pending
  /\ (pending = completed
      \/ rank completed < rank pending
      \/ (completed = completed /\ pending = pending
          /\ exists task,
               OpClick CheckBox row = OpClick CheckBox task
               /\ id task = id row)).
Proof.
  intros row st.
  assert (Hs : statusOf (id row) (tasks st) = Some completed)
    by reflexivity.
  assert (Hs' : statusOf (id row)
                  (tasks (state (perform (OpClick CheckBox row) st)))
                = Some pending) by reflexivity.
  split; [exact Hs|]. split; [exact Hs'|].
  apply (status_transitions_forward Js.asciiToLowerCase
           (OpClick CheckBox row) st (id row)).
  - vm_compute. repeat constructor; simpl; intuition discriminate.
  - vm_compute. repeat constructor; simpl; intuition discriminate.
  - split; [vm_compute; tauto | discriminate].
  - exact Hs.
  - exact Hs'.
Defined.

End TaskFacts.

(** ** CalendarView: adding an event *)
Module CalendarFacts.
Import CalendarView.

(** C6, as stated: an event input whose end is before its start would be
    refused with [ValidationError] and never reach the list.  The meeting
    above is added, and nothing is raised. *)
Lemma addEvent_end_before_start_counterexample :
  Js.ltb (new_end_time backwardsMeeting) (new_start_time backwardsMeeting)
  = true
  /\ raised (addEvent 1705400000000
               (setNewEvent (fun _ => backwardsMeeting) (initial 0)))
     <> Some ValidationError
  /\ existsb endsBeforeStart
       (events (state (addEvent 1705400000000
                         (setNewEvent (fun _ => backwardsMeeting)
                            (initial 0)))))
     = true.
Proof.
  split; [reflexivity|]. split; [vm_compute; discriminate | reflexivity].
Qed.

(** C6, amended.  [addEvent] does not compare the two timestamps: every
    input with a title that is not blank and with a start and an end that
    are not empty is appended to the event list as typed, whether or not
    its end is before its start, and no error is raised. *)
Theorem addEvent_appends_unordered (now : Z) (st : State) :
  Js.trim (new_title (newEvent st)) <> [] ->
  new_start_time (newEvent st) <> [] ->
  new_end_time (newEvent st) <> [] ->
  exists event,
    events (state (addEvent now st)) = events st ++ [event]
    /\ title event = new_title (newEvent st)
    /\ start_time event = new_start_time (newEvent st)
    /\ end_time event = new_end_time (newEvent st)
    /\ raised (addEvent now st) = None.
Proof.
  intros Ht Hs He. unfold addEvent.
  apply JsFacts.truthy_trim in Ht. rewrite Ht.
  destruct (new_start_time (newEvent st)) as [|c1 r1]; [congruence|].
  destruct (new_end_time (newEvent st)) as [|c2 r2]; [congruence|].
  simpl. eexists. split; [reflexivity|]. simpl. repeat split.
Qed.

Lemma addEvent_appends_unordered_witness :
  exists event,
    events (state (addEvent 1705400000000
                     (setNewEvent (fun _ => backwardsMeeting) (initial 0))))
    = [event]
    /\ endsBeforeStart event = true.
Proof.
  destruct (addEvent_appends_unordered 1705400000000
              (setNewEvent (fun _ => backwardsMeeting) (initial 0)))
    as [event [Hev [_ [Hs [He _]]]]];
    [vm_compute; discriminate | vm_compute; discriminate
     | vm_compute; discriminate |].
  exists event. split; [exact Hev|].
  unfold endsBeforeStart. rewrite Hs, He. reflexivity.
Defined.

(** The only inputs [addEvent] turns away are the incomplete ones, and it
    turns them away silently. *)
Lemma addEvent_incomplete (now : Z) (st : State) :
  Js.trim (new_title (newEvent st)) = []
  \/ new_start_time (newEvent st) = []
  \/ new_end_time (newEvent st) = [] ->
  addEvent now st = done st.
Proof.
  unfold addEvent. intros [H | [H | H]]; rewrite H; simpl;
    repeat rewrite orb_true_r; reflexivity.
Qed.

End CalendarFacts.

(** ** Dashboard: acting on a suggestion *)
Module DashboardFacts.
Import Dashboard.

Lemma suggestions_handle (suggestionId : Z) (action : Js.str) (st : State) :
  suggestions (state (handleSuggestionAction suggestionId action st))
  = filter (fun s => negb (Z.eqb (id s) suggestionId)) (suggestions st).
Proof. reflexivity. Qed.

Lemma filter_out_split (suggestionId : Z) (before rest : list Suggestion)
  (s : Suggestion) :
  id s = suggestionId ->
  ~ In suggestionId (map id (before ++ rest)) ->
  filter (fun x => negb (Z.eqb (id x) suggestionId)) (before ++ s :: rest)
  = before ++ rest.
Proof.
  intros Hid Hnot. rewrite filter_app. simpl.
  rewrite Hid, Z.eqb_refl. simpl. rewrite <- filter_app.
  apply forallb_filter_id. apply forallb_forall. intros x Hx.
  apply negb_true_iff, Z.eqb_neq. intros E. apply Hnot.
  rewrite <- E. apply in_map, Hx.
Qed.

Lemma handle_never_adds (calls : list (Z * Js.str)) (st : State)
  (s : Suggestion) :
  In s (suggestions
          (fold_left
             (fun acc call =>
                state (handleSuggestionAction (fst call) (snd call) acc))
             calls st)) ->
  In s (suggestions st).
Proof.
  revert st; induction calls as [|call calls IH]; intros st; simpl;
    [auto|].
  intros H. apply IH in H. simpl in H.
  apply filter_In in H. apply H.
Qed.

(** C9.  Accepting or dismissing a suggestion whose identifier is in the
    list removes the suggestions with that identifier and no other, keeps
    the others as they are and in their order, touches no other cell of
    the dashboard, and no later accept or dismiss brings the identifier
    back.  With unique identifiers exactly one suggestion leaves. *)
Theorem handleSuggestionAction_removes (st : State) (suggestionId : Z)
  (action : Js.str) :
  In suggestionId (map id (suggestions st)) ->
  let after := state (handleSuggestionAction suggestionId action st) in
  (forall s, In s (suggestions after)
             <-> In s (suggestions st) /\ id s <> suggestionId)
  /\ ~ In suggestionId (map id (suggestions after))
  /\ (NoDup (map id (suggestions st)) ->
      exists before s rest,
        suggestions st = before ++ s :: rest
        /\ id s = suggestionId
        /\ suggestions after = before ++ rest)
  /\ stats after = stats st
  /\ loading after = loading st
  /\ (forall calls,
        ~ In suggestionId
            (map id
               (suggestions
                  (fold_left
                     (fun acc call =>
                        state (handleSuggestionAction (fst call) (snd call)
                                 acc))
                     calls after)))).
Proof.
  intros Hin after.
  assert (Hmem : forall s, In s (suggestions after)
                           <-> In s (suggestions st) /\ id s <> suggestionId).
  { intros s. unfold after. rewrite suggestions_handle, filter_In.
    rewrite negb_true_iff, Z.eqb_neq. tauto. }
  assert (Hout : ~ In suggestionId (map id (suggestions after))).
  { intros H. apply in_map_iff in H. destruct H as [s [Hid Hs]].
    apply Hmem in Hs. tauto. }
  split; [exact Hmem|]. split; [exact Hout|].
  split; [|split; [reflexivity|split; [reflexivity|]]].
  - intros Hnd. apply in_map_iff in Hin. destruct Hin as [s [Hid Hs]].
    apply in_split in Hs. destruct Hs as [before [rest E]].
    exists before, s, rest. split; [exact E|]. split; [exact Hid|].
    unfold after. rewrite suggestions_handle, E.
    apply filter_out_split; [exact Hid|].
    rewrite E, map_app in Hnd. simpl in Hnd.
    apply NoDup_remove_2 in Hnd. rewrite map_app, <- Hid. exact Hnd.
  - intros calls H. apply in_map_iff in H. destruct H as [s [Hid Hs]].
    apply handle_never_adds in Hs. apply Hout.
    rewrite <- Hid. apply in_map, Hs.
Qed.

Lemma handleSuggestionAction_removes_witness :
  map id
    (suggestions
       (state (handleSuggestionAction 2 dismiss
                 (state (fetchDashboardData None initial)))))
  = [1%Z; 3%Z]
  /\ ~ In 2%Z
       (map id
          (suggestions
             (state (handleSuggestionAction 2 dismiss
                       (state (fetchDashboardData None initial)))))).
Proof.
  split; [reflexivity|].
  apply (handleSuggestionAction_removes
           (state (fetchDashboardData None initial)) 2 dismiss).
  vm_compute. tauto.
Defined.

(** The only trace of the action name is the line written to the
    console. *)
Lemma actionLogLine_names_action :
  actionLogLine 2 accept <> actionLogLine 2 dismiss.
Proof. vm_compute. discriminate. Qed.

(** C10.  Accept and dismiss are the same operation on the state: for
    every page, every suggestion identifier and every two action names,
    accept and dismiss among them, the handler leaves the same page, in
    which the suggestions are the old ones without that identifier and the
    statistics, the tasks and the events are the old ones. *)
Theorem accept_dismiss_same_state (p : Page) (suggestionId : Z) :
  onDashboard (handleSuggestionAction suggestionId accept) p
  = onDashboard (handleSuggestionAction suggestionId dismiss) p
  /\ (forall action action',
        onDashboard (handleSuggestionAction suggestionId action) p
        = onDashboard (handleSuggestionAction suggestionId action') p)
  /\ (forall action,
        let after :=
          state (onDashboard (handleSuggestionAction suggestionId action) p)
        in
        taskManager after = taskManager p
        /\ calendarView after = calendarView p
        /\ stats (dashboard after) = stats (dashboard p)
        /\ loading (dashboard after) = loading (dashboard p)
        /\ suggestions (dashboard after)
           = filter (fun s => negb (Z.eqb (id s) suggestionId))
               (suggestions (dashboard p))).
Proof.
  split; [reflexivity|]. split; [reflexivity|].
  intros action after. repeat split.
Qed.

End DashboardFacts.

(** ** ChatInterface: a request that fails *)
Module ChatFacts.
Import ChatInterface.

(** Every way the request can fail. *)
Lemma awaitReply_failure (net : ChatFetch) (e : Error) :
  awaitReply net = inl e <->
  net = Rejected e
  \/ (exists json, net = Responded false json
                   /\ e = OtherError (Js.lit "Failed to get response"))
  \/ net = Responded true (inl e).
Proof.
  destruct net as [e' | [|] [e' | data]]; simpl; split; intros H.
  all: try (inversion H; subst; eauto; fail).
  all: try (destruct H as [H | [[json [H E]] | H]]; inversion H; subst;
            try rewrite E; reflexivity).
Qed.

(** C2.  When a message is sent and the request fails, in whatever way,
    the conversation grows by the user's message followed by one message
    from the agent MindFlow whose text is the fixed fallback text; the
    error reaches the [catch] block only and no part of it is shown; the
    state left is the same for every failure. *)
Theorem sendMessage_failure_fallback (before after : Clock)
  (net : ChatFetch) (st : State) (e : Error) :
  Js.trim (inputValue st) <> [] ->
  isLoading st = false ->
  awaitReply net = inl e ->
  let out := sendMessage before after net st in
  (exists userMessage,
      messages (state out)
      = messages st ++ [userMessage; fallbackMessage after]
      /\ sender userMessage = sender_user
      /\ content userMessage = inputValue st)
  /\ content (fallbackMessage after) = fallbackContent
  /\ sender (fallbackMessage after) = sender_agent
  /\ agent (fallbackMessage after) = Some (Js.lit "MindFlow")
  /\ isLoading (state out) = false
  /\ raised out = Some e
  /\ (forall net' e', awaitReply net' = inl e' ->
        state (sendMessage before after net' st) = state out).
Proof.
  intros Hinput Hidle Hfail out. unfold out, sendMessage.
  apply JsFacts.truthy_trim in Hinput. rewrite Hinput, Hidle, Hfail. simpl.
  split.
  - eexists. rewrite <- app_assoc. simpl. repeat split.
  - repeat split. intros net' e' Hfail'. rewrite Hfail'. reflexivity.
Qed.

Lemma sendMessage_failure_fallback_witness :
  exists userMessage,
    messages
      (state (sendMessage (mkClock 1705400000000 1705400000000)
                (mkClock 1705400000250 1705400000250)
                (Responded false (inl UpstreamError))
                {| messages := [welcome (Js.lit "Ada") 1705399990000];
                   inputValue := Js.lit "Show my tasks";
                   isLoading := false |}))
    = [welcome (Js.lit "Ada") 1705399990000; userMessage;
       fallbackMessage (mkClock 1705400000250 1705400000250)]
    /\ sender userMessage = sender_user
    /\ content userMessage = Js.lit "Show my tasks".
Proof.
  apply (@sendMessage_failure_fallback
           (mkClock 1705400000000 1705400000000)
           (mkClock 1705400000250 1705400000250)
           (Responded false (inl UpstreamError))
           {| messages := [welcome (Js.lit "Ada") 1705399990000];
              inputValue := Js.lit "Show my tasks";
              isLoading := false |}
           (OtherError (Js.lit "Failed to get response"))).
  - vm_compute. discriminate.
  - reflexivity.
  - reflexivity.
Defined.

(** A request that succeeds shows the reply of the backend. *)
Lemma sendMessage_success (before after : Clock) (ok : ChatData)
  (st : State) :
  Js.trim (inputValue st) <> [] ->
  isLoading st = false ->
  exists userMessage agentMessage,
    messages (state (sendMessage before after (Responded true (inr ok)) st))
    = messages st ++ [userMessage; agentMessage]
    /\ content agentMessage = data_response ok
    /\ agent agentMessage = data_agent ok.
Proof.
  intros Hinput Hidle. unfold sendMessage.
  apply JsFacts.truthy_trim in Hinput. rewrite Hinput, Hidle. simpl.
  do 2 eexists. rewrite <- app_assoc. simpl. repeat split.
Qed.

End ChatFacts.

(** ** The orchestrator: routing *)
Module RoutingFacts.
Import Orchestrator.

Section Routing.

Variable Ctx : Type.
Variable patterns : Agent -> list Js.str.
Variable worker : Agent -> Js.str -> Ctx -> Js.str.
Variable queryLLM : Js.str -> Error + Js.str.
Variable persona : Js.str.

(** The first agent of the priority order that matches is the one
    chosen. *)
Lemma classify_first_match (message : Js.str) (before after : list Agent)
  (a : Agent) :
  priorityOrder = before ++ a :: after ->
  Forall (fun b => matches patterns b message = false) before ->
  matches patterns a message = true ->
  classify patterns message = a.
Proof.
  intros Horder Hbefore Ha. unfold classify. rewrite Horder.
  clear Horder. induction Hbefore as [|b before Hb _ IH]; simpl.
  - rewrite Ha. reflexivity.
  - rewrite Hb. exact IH.
Qed.

Lemma classify_no_match (message : Js.str) :
  (forall a, In a priorityOrder -> matches patterns a message = false) ->
  classify patterns message = MindFlow.
Proof.
  intros H. unfold classify.
  destruct (find _ priorityOrder) as [a|] eqn:E; [|reflexivity].
  apply find_some in E. destruct E as [Hin Hm].
  rewrite (H a Hin) in Hm. discriminate.
Qed.

(** C1.  Routing is total and deterministic.  Every message has exactly
    one response; a message that matches a TaskFlow pattern goes to
    TaskFlow, no agent having a higher priority; more generally the first
    agent in the order TaskFlow, CalendarFlow, InfoFlow whose pattern
    matches is selected and answers; a message no agent matches is
    answered by MindFlow itself, with the generic text when the language
    model fails. *)
Theorem route_total_deterministic (message : Js.str) (context : Ctx) :
  let answer := route patterns worker queryLLM persona message context in
  (exists r : Response, answer = r /\ forall r', answer = r' -> r' = r)
  /\ (matches patterns TaskFlow message = true ->
      agent answer = TaskFlow
      /\ response answer = worker TaskFlow message context)
  /\ (forall before a after,
        priorityOrder = before ++ a :: after ->
        Forall (fun b => matches patterns b message = false) before ->
        matches patterns a message = true ->
        agent answer = a /\ response answer = worker a message context)
  /\ ((forall a, In a priorityOrder ->
                 matches patterns a message = false) ->
      agent answer = MindFlow
      /\ (response answer = troubleText
          \/ queryLLM (persona ++ message) = inr (response answer))).
Proof.
  intros answer.
  assert (Hfirst : forall before a after,
             priorityOrder = before ++ a :: after ->
             Forall (fun b => matches patterns b message = false) before ->
             matches patterns a message = true ->
             agent answer = a /\ response answer = worker a message context).
  { intros before a after Horder Hbefore Ha.
    pose proof (@classify_first_match message before after a Horder Hbefore Ha)
      as Hc.
    assert (Hw : a <> MindFlow).
    { intros ->. destruct before as [|b [|b1 [|b2 [|b3 before]]]];
        inversion Horder. }
    unfold answer, route. rewrite Hc. destruct a; [congruence| | |];
      split; reflexivity. }
  split; [exists answer; split; [reflexivity | intros r' <-; reflexivity]|].
  split; [|split; [exact Hfirst|]].
  - intros Ht. apply (Hfirst [] TaskFlow [CalendarFlow; InfoFlow]);
      [reflexivity | constructor | exact Ht].
  - intros Hnone. unfold answer, route.
    rewrite (@classify_no_match message Hnone). simpl.
    split; [reflexivity|].
    destruct (queryLLM (persona ++ message)); auto.
Qed.

End Routing.

(** Scenario 1 of the specification: ["add task Review reports"] goes to
    TaskFlow. *)
Lemma route_total_deterministic_witness :
  agent
    (route specPatterns (fun _ _ (_ : unit) => Js.lit "Task added.")
       (fun _ => inl UpstreamError) (Js.lit "You are MindFlow. ")
       (Js.lit "add task Review reports") tt)
  = TaskFlow.
Proof.
  apply (route_total_deterministic specPatterns
           (fun _ _ (_ : unit) => Js.lit "Task added.")
           (fun _ => inl UpstreamError) (Js.lit "You are MindFlow. ")
           (Js.lit "add task Review reports") tt).
  reflexivity.
Defined.

(** Scenario 2: ["what do I have tomorrow?"] goes to CalendarFlow. *)
Example route_calendar :
  classify specPatterns (Js.lit "what do I have tomorrow?") = CalendarFlow.
Proof. reflexivity. Qed.

(** A message with a task phrase and a calendar phrase goes to TaskFlow. *)
Example route_tie :
  classify specPatterns (Js.lit "add task then schedule event") = TaskFlow.
Proof. reflexivity. Qed.

(** A message no pattern matches is answered by MindFlow, also when the
    language model is down. *)
Example route_unmatched :
  route specPatterns (fun _ _ (_ : unit) => Js.lit "Task added.")
    (fun _ => inl UpstreamError) (Js.lit "You are MindFlow. ")
    (Js.lit "hello") tt
  = {| response := troubleText; agent := MindFlow |}.
Proof. reflexivity. Qed.

End RoutingFacts.

(** * Further properties of the components *)

(** ** More on JavaScript strings *)
Module JsMore.
Import Js.

Lemma lit_inj (a b : string) : lit a = lit b -> a = b.
Proof.
  unfold lit. intros H.
  rewrite <- (string_of_list_ascii_of_string a),
          <- (string_of_list_ascii_of_string b).
  f_equal. revert H.
  generalize (list_ascii_of_string a) (list_ascii_of_string b).
  induction l as [|c l IH]; intros [|d l']; simpl; intros H;
    try discriminate; [reflexivity|].
  inversion H as [[Hc Hl]]. f_equal; [|auto].
  rewrite <- (ascii_N_embedding c), <- (ascii_N_embedding d), Hc.
  reflexivity.
Qed.

Lemma to_int_proper (n : Z) :
  Z.to_int n <> Decimal.Pos Decimal.Nil /\ Z.to_int n <> Decimal.Neg Decimal.Nil.
Proof.
  destruct n as [|p|p]; simpl; split; try discriminate;
    intros H; inversion H as [E];
    exact (DecimalPos.Unsigned.to_uint_nonnil p E).
Qed.

(** Different integral numbers print differently. *)
Lemma toString_inj (a b : Z) : toString a = toString b -> a = b.
Proof.
  unfold toString. intros H. apply lit_inj in H.
  apply DecimalZ.to_int_inj.
  destruct (to_int_proper a) as [Ha1 Ha2].
  destruct (to_int_proper b) as [Hb1 Hb2].
  pose proof (NilZero.isi (Z.to_int a) Ha1 Ha2) as Ea.
  pose proof (NilZero.isi (Z.to_int b) Hb1 Hb2) as Eb.
  rewrite H in Ea. rewrite Ea in Eb. inversion Eb. reflexivity.
Qed.

Lemma startsWith_app (s p : str) :
  startsWith s p = true <-> exists r, s = p ++ r.
Proof.
  revert s; induction p as [|c p IH]; intros s; simpl.
  - split; [intros _; exists s; reflexivity | destruct s; reflexivity].
  - destruct s as [|d s]; simpl;
      [split; [discriminate | intros [r H]; discriminate]|].
    rewrite andb_true_iff, N.eqb_eq, IH. split.
    + intros [-> [r ->]]. exists r; reflexivity.
    + intros [r H]. inversion H; subst. split; [reflexivity | exists r; reflexivity].
Qed.

Lemma startsWith_refl (s : str) : startsWith s s = true.
Proof. apply startsWith_app. exists []. symmetry. apply app_nil_r. Qed.

Lemma includes_refl (s : str) : includes s s = true.
Proof.
  destruct s; simpl; [reflexivity|].
  rewrite N.eqb_refl, startsWith_refl. reflexivity.
Qed.

(** Two prefixes of one string that have the same length are equal. *)
Lemma startsWith_same_length (s p q : str) :
  startsWith s p = true -> startsWith s q = true ->
  List.length p = List.length q -> p = q.
Proof.
  intros Hp Hq Hlen.
  apply startsWith_app in Hp. apply startsWith_app in Hq.
  destruct Hp as [r1 ->]. destruct Hq as [r2 E].
  revert q Hlen E. induction p as [|c p IH]; intros [|d q] Hlen E;
    simpl in *; try discriminate; [reflexivity|].
  inversion E; subst. f_equal. apply IH; [lia | assumption].
Qed.

End JsMore.

(** ** TaskManager: the dialog, the buttons and the displayed list *)
Module TaskOps.
Import TaskManager.

(** X1.  A title made of white space only is turned away silently: the
    state stays as it is, the dialog open and the form as typed, and no
    error is raised. *)
Theorem addTask_whitespace_title (clock : Clock) (st : State) :
  forallb Js.isWhiteSpace (new_title (newTask st)) = true ->
  addTask clock st = done st.
Proof.
  intros H. apply TaskFacts.addTask_blank. apply JsFacts.trim_nil_iff, H.
Qed.

Lemma addTask_whitespace_title_witness :
  addTask (mkClock 1705400000000 1705400000000)
    (onChange (EditTitle (Js.lit "   ")) (setShowAddTask true initial))
  = done (onChange (EditTitle (Js.lit "   ")) (setShowAddTask true initial)).
Proof.
  apply (addTask_whitespace_title (mkClock 1705400000000 1705400000000)
           (onChange (EditTitle (Js.lit "   ")) (setShowAddTask true initial))).
  reflexivity.
Defined.

(** X2.  Adding a task empties the form, so pressing [Add Task] again
    right away adds nothing: the second call leaves the state of the
    first. *)
Theorem addTask_second_press (first second : Clock) (st : State) :
  Js.trim (new_title (newTask st)) <> [] ->
  addTask second (state (addTask first st)) = done (state (addTask first st))
  /\ showAddTask (state (addTask first st)) = false
  /\ newTask (state (addTask first st)) = emptyNewTask.
Proof.
  intros H. apply JsFacts.truthy_trim in H.
  unfold addTask at 2 3 4 5. rewrite H. simpl.
  repeat split.
Qed.

Lemma addTask_second_press_witness :
  tasks (state (addTask (mkClock 1705400000001 1705400000001)
                  (state (addTask (mkClock 1705400000000 1705400000000)
                            (onChange (EditTitle (Js.lit "Review reports"))
                               initial)))))
  = tasks (state (addTask (mkClock 1705400000000 1705400000000)
                    (onChange (EditTitle (Js.lit "Review reports"))
                       initial))).
Proof.
  destruct (@addTask_second_press (mkClock 1705400000000 1705400000000)
              (mkClock 1705400000001 1705400000001)
              (onChange (EditTitle (Js.lit "Review reports")) initial))
    as [E _].
  - vm_compute. discriminate.
  - rewrite E. reflexivity.
Defined.

(** X3.  [updateTaskStatus] changes the status of the tasks carrying the
    identifier and nothing else: the list keeps its length and order,
    every task keeps all its other fields, a task with another identifier
    keeps its status too, and the other cells of the component are
    untouched. *)
Theorem updateTaskStatus_frame (taskId : Js.str) (s : Status) (st : State) :
  let after := state (updateTaskStatus taskId s st) in
  Forall2
    (fun old new =>
       id new = id old /\ title new = title old
       /\ description new = description old /\ priority new = priority old
       /\ due_date new = due_date old /\ created_at new = created_at old
       /\ status new = (if Js.eqb (id old) taskId then s else status old))
    (tasks st) (tasks after)
  /\ filter after = filter st /\ searchTerm after = searchTerm st
  /\ showAddTask after = showAddTask st /\ newTask after = newTask st
  /\ loading after = loading st.
Proof.
  intros after. split; [|repeat split].
  unfold after. rewrite TaskFacts.tasks_updateTaskStatus.
  induction (tasks st) as [|task l IH]; simpl; constructor; [|exact IH].
  destruct (Js.eqb (id task) taskId); simpl; repeat split.
Qed.

(** X4.  The last status written wins: two updates of one identifier in a
    row are the second alone. *)
Theorem updateTaskStatus_last_wins (taskId : Js.str) (s1 s2 : Status)
  (st : State) :
  updateTaskStatus taskId s2 (state (updateTaskStatus taskId s1 st))
  = updateTaskStatus taskId s2 st.
Proof.
  unfold updateTaskStatus, done, setTasks; simpl. do 2 f_equal.
  rewrite map_map. apply map_ext. intros task.
  destruct (Js.eqb (id task) taskId) eqn:E; simpl; rewrite E; reflexivity.
Qed.

(** X5.  On a pending row, [Start] followed by [Complete] on the row as
    rendered next leaves the state the check box alone leaves. *)
Theorem start_then_complete (task : Task) (st : State) :
  status task = pending ->
  click CompleteButton (withStatus task in_progress)
    (state (click StartButton task st))
  = click CheckBox task st.
Proof.
  intros H. unfold click. simpl. rewrite H. simpl.
  apply updateTaskStatus_last_wins.
Qed.

Lemma start_then_complete_witness :
  let row := nth 0 mockTasks (mkTask [] [] None low pending None 0) in
  click CompleteButton (withStatus row in_progress)
    (state (click StartButton row (state (fetchTasks initial))))
  = click CheckBox row (state (fetchTasks initial)).
Proof.
  intros row.
  apply (start_then_complete row (state (fetchTasks initial))).
  reflexivity.
Defined.

Lemma unique_by_id (l : list Task) (a b : Task) :
  NoDup (map id l) -> In a l -> In b l -> id a = id b -> a = b.
Proof.
  induction l as [|c l IH]; simpl; intros Hnd Ha Hb E; [contradiction|].
  inversion Hnd as [|x xs Hnotin Hnd']; subst.
  destruct Ha as [-> | Ha], Hb as [-> | Hb]; auto.
  - exfalso. apply Hnotin. rewrite E. apply in_map, Hb.
  - exfalso. apply Hnotin. rewrite <- E. apply in_map, Ha.
Qed.

(** X6.  With unique identifiers, two presses of the check box of a row
    that is pending or completed give back the state they started from.
    On a row in progress they do not: the task ends pending. *)
Theorem checkbox_twice (task : Task) (st : State) :
  NoDup (map id (tasks st)) ->
  In task (tasks st) ->
  let once := state (click CheckBox task st) in
  let row := withStatus task
               (if Status_eqb (status task) completed then pending
                else completed) in
  (status task <> in_progress -> state (click CheckBox row once) = st)
  /\ (status task = in_progress ->
      statusOf (id task) (tasks (state (click CheckBox row once)))
      = Some pending).
Proof.
  intros Hnd Hin once row. split.
  - intros Hs. unfold once, row, click. cbn [onClick withStatus id status].
    rewrite updateTaskStatus_last_wins.
    rewrite TaskFacts.updateTaskStatus_fixed; [reflexivity|].
    intros other Hother E.
    rewrite (unique_by_id _ other task Hnd Hother Hin E).
    destruct (status task); simpl; congruence.
  - intros Hs. unfold once, row, click. cbn [onClick withStatus id status].
    rewrite updateTaskStatus_last_wins, TaskFacts.statusOf_updateTaskStatus.
    rewrite JsFacts.eqb_refl, (TaskFacts.statusOf_unique _ _ Hnd Hin).
    rewrite Hs. reflexivity.
Qed.

Lemma checkbox_twice_witness :
  let task := nth 0 mockTasks (mkTask [] [] None low pending None 0) in
  let st := state (fetchTasks initial) in
  state (click CheckBox (withStatus task completed)
           (state (click CheckBox task st))) = st.
Proof.
  intros task st.
  assert (Hnd : NoDup (map id (tasks st)))
    by (vm_compute; repeat constructor; simpl; intuition discriminate).
  assert (Hin : In task (tasks st)) by (left; reflexivity).
  destruct (checkbox_twice task st Hnd Hin) as [H _].
  apply H. discriminate.
Defined.

(** X7.  Under a status filter, a row whose status has just been set to
    another status is no longer displayed, and every row displayed has the
    status of the filter. *)
Theorem status_filter_hides_updated (toLowerCase : Js.str -> Js.str)
  (taskId : Js.str) (s s' : Status) (st : State) :
  filter st = only s ->
  s <> s' ->
  forall task,
    In task (filterTasks toLowerCase (state (updateTaskStatus taskId s' st))) ->
    status task = s /\ id task <> taskId.
Proof.
  intros Hf Hne task Hin.
  assert (Hs : status task = s
               /\ In task (tasks (state (updateTaskStatus taskId s' st)))).
  { unfold filterTasks in Hin. simpl in Hin. rewrite Hf in Hin.
    destruct (Js.truthy (searchTerm st));
      [apply filter_In in Hin; destruct Hin as [Hin _]|];
      apply filter_In in Hin; destruct Hin as [Hin Hst];
      (split; [destruct (status task), s; simpl in Hst;
               congruence | exact Hin]). }
  destruct Hs as [Hs Hmem]. split; [exact Hs|].
  rewrite TaskFacts.tasks_updateTaskStatus in Hmem.
  apply in_map_iff in Hmem. destruct Hmem as [old [E _]].
  destruct (Js.eqb (id old) taskId) eqn:Eid; subst task.
  - simpl in Hs. congruence.
  - intros E. rewrite E, JsFacts.eqb_refl in Eid. discriminate.
Qed.

Lemma status_filter_hides_updated_witness :
  let shown :=
    filterTasks Js.asciiToLowerCase
      (state (updateTaskStatus (Js.lit "1") in_progress
                (setFilter (only pending) (state (fetchTasks initial))))) in
  let task := nth 0 shown (mkTask [] [] None low pending None 0) in
  In task shown /\ status task = pending /\ id task <> Js.lit "1".
Proof.
  intros shown task.
  assert (Hin : In task shown) by (left; reflexivity).
  split; [exact Hin|].
  apply (@status_filter_hides_updated Js.asciiToLowerCase (Js.lit "1")
           pending in_progress
           (setFilter (only pending) (state (fetchTasks initial)))).
  - reflexivity.
  - discriminate.
  - exact Hin.
Defined.

End TaskOps.

(** ** TaskManager: identifiers of created tasks *)
Module TaskIds.
Import TaskManager.

Lemma createTask_cases (clock : Clock) (edits : list FormEdit) (st : State) :
  tasks (createTask clock edits st) = tasks st
  \/ exists task,
       tasks (createTask clock edits st) = task :: tasks st
       /\ id task = Js.toString (now clock)
       /\ status task = pending.
Proof.
  unfold createTask.
  set (st1 := fold_left (fun s e => onChange e s) edits
                (setShowAddTask true st)).
  assert (E : tasks st1 = tasks st)
    by (unfold st1; rewrite TaskFacts.tasks_onChange; reflexivity).
  destruct (Js.trim (new_title (newTask st1))) as [|c r] eqn:Ht.
  - left. rewrite (TaskFacts.addTask_blank clock st1 Ht). exact E.
  - right. eexists. split.
    + rewrite TaskFacts.addTask_tasks by (rewrite Ht; discriminate).
      rewrite E. reflexivity.
    + split; reflexivity.
Qed.

Lemma createTasks_ids (uses : list (Clock * list FormEdit)) :
  forall st : State,
    StronglySorted Z.lt (map (fun use => now (fst use)) uses) ->
    NoDup (map id (tasks st)) ->
    (forall use, In use uses ->
                 ~ In (Js.toString (now (fst use))) (map id (tasks st))) ->
    NoDup (map id (tasks (createTasks uses st))).
Proof.
  induction uses as [|use uses IH]; intros st Hclock Hnd Hfresh; simpl.
  - exact Hnd.
  - apply StronglySorted_inv in Hclock. destruct Hclock as [Hrest Hlt].
    rewrite Forall_forall in Hlt.
    destruct (createTask_cases (fst use) (snd use) st)
      as [E | [task [E [Hid _]]]].
    + apply IH; [exact Hrest | rewrite E; exact Hnd |].
      intros use' Hin. rewrite E. apply Hfresh. right; exact Hin.
    + apply IH; [exact Hrest | |].
      * rewrite E. simpl. constructor; [|exact Hnd].
        rewrite Hid. apply Hfresh. left; reflexivity.
      * intros use' Hin. rewrite E. simpl. intros [Heq | Hold].
        -- rewrite Hid in Heq. apply JsMore.toString_inj in Heq.
           assert (Hlt' : (now (fst use) < now (fst use'))%Z)
             by (apply Hlt, (in_map (fun u => now (fst u))), Hin).
           lia.
        -- apply (Hfresh use'); [right; exact Hin | exact Hold].
Qed.

(** X8.  Tasks created at clock readings that go strictly up carry
    distinct identifiers: the list built from the empty list by any uses
    of the dialog has no identifier twice. *)
Theorem createTasks_unique_ids (uses : list (Clock * list FormEdit)) :
  StronglySorted Z.lt (map (fun use => now (fst use)) uses) ->
  NoDup (map id (tasks (createTasks uses initial))).
Proof.
  intros Hclock. apply createTasks_ids; [exact Hclock | constructor |].
  intros use _ [].
Qed.

Lemma createTasks_unique_ids_witness :
  NoDup
    (map id
       (tasks
          (createTasks
             [ (mkClock 1705400000000 1705400000000,
                [EditTitle (Js.lit "Review reports")]);
               (mkClock 1705400060000 1705400060000,
                [EditTitle (Js.lit "Call client")]) ]
             initial))).
Proof.
  apply (createTasks_unique_ids
           [ (mkClock 1705400000000 1705400000000,
              [EditTitle (Js.lit "Review reports")]);
             (mkClock 1705400060000 1705400060000,
              [EditTitle (Js.lit "Call client")]) ]).
  simpl. repeat constructor.
Defined.

End TaskIds.

(** ** ChatInterface: the conversation *)
Module ChatOps.
Import ChatInterface.

(** X9.  A text made of white space only is not sent, and nothing is sent
    while a request is under way: the state stays as it is, no message is
    added and no error is raised. *)
Theorem sendMessage_guard (before after : Clock) (net : ChatFetch)
  (st : State) :
  forallb Js.isWhiteSpace (inputValue st) = true \/ isLoading st = true ->
  sendMessage before after net st = done st.
Proof.
  intros [H | H]; unfold sendMessage.
  - apply JsFacts.trim_nil_iff in H. rewrite H. reflexivity.
  - rewrite H, orb_true_r. reflexivity.
Qed.

Lemma sendMessage_guard_witness :
  sendMessage (mkClock 1705400000000 1705400000000)
    (mkClock 1705400000250 1705400000250)
    (Responded true (inr (mkChatData (Js.lit "Done") None)))
    (setInputValue (Js.lit "  ") initial)
  = done (setInputValue (Js.lit "  ") initial).
Proof.
  apply (sendMessage_guard (mkClock 1705400000000 1705400000000)
           (mkClock 1705400000250 1705400000250)
           (Responded true (inr (mkChatData (Js.lit "Done") None)))
           (setInputValue (Js.lit "  ") initial)).
  left. reflexivity.
Defined.

Lemma exchange_messages (x : Exchange) (st : State) :
  isLoading st = false ->
  isLoading (exchange x st) = false
  /\ exists added,
       messages (exchange x st) = messages st ++ added
       /\ map sender added = (if isSent x then turn else [])
       /\ Forall (fun m => sender m = sender_user -> agent m = None) added.
Proof.
  intros Hidle. unfold exchange, sendMessage, isSent. simpl.
  rewrite Hidle.
  destruct (Js.truthy (Js.trim (typed x))); simpl.
  - destruct (awaitReply (reply x)) as [e | data]; simpl;
      (split; [reflexivity|]); eexists;
      (split; [rewrite <- app_assoc; reflexivity|]);
      (split; [reflexivity|]);
      repeat constructor; simpl; discriminate.
  - split; [exact Hidle|]. exists []. rewrite app_nil_r.
    repeat split. constructor.
Qed.

(** X10.  The conversation only grows at its end, by whole turns.  After
    any exchanges, started when no request is under way, the messages are
    the old ones followed by one user message and one agent message, in
    this order, for every text sent that was not blank, and no request is
    left under way. *)
Theorem converse_appends_turns (xs : list Exchange) (st : State) :
  isLoading st = false ->
  isLoading (converse xs st) = false
  /\ exists added,
       messages (converse xs st) = messages st ++ added
       /\ map sender added
          = List.concat (repeat turn (List.length (List.filter isSent xs))).
Proof.
  revert st. induction xs as [|x xs IH]; intros st Hidle.
  - split; [exact Hidle|]. exists []. simpl. rewrite app_nil_r.
    split; reflexivity.
  - change (converse (x :: xs) st) with (converse xs (exchange x st)).
    destruct (exchange_messages x st Hidle) as [Hidle' [first [E [Hs _]]]].
    destruct (IH (exchange x st) Hidle') as [Hfinal [rest [E' Hs']]].
    split; [exact Hfinal|]. exists (first ++ rest). split.
    + rewrite E', E, app_assoc. reflexivity.
    + rewrite map_app, Hs, Hs'. simpl. destruct (isSent x); reflexivity.
Qed.

Lemma converse_appends_turns_witness :
  map sender
    (messages
       (converse
          [ mkExchange (Js.lit "Show my tasks")
              (mkClock 1705400000000 1705400000000)
              (mkClock 1705400000250 1705400000250)
              (Rejected UpstreamError);
            mkExchange (Js.lit " ")
              (mkClock 1705400001000 1705400001000)
              (mkClock 1705400001250 1705400001250)
              (Rejected UpstreamError) ]
          initial))
  = [sender_user; sender_agent].
Proof.
  destruct (converse_appends_turns
              [ mkExchange (Js.lit "Show my tasks")
                  (mkClock 1705400000000 1705400000000)
                  (mkClock 1705400000250 1705400000250)
                  (Rejected UpstreamError);
                mkExchange (Js.lit " ")
                  (mkClock 1705400001000 1705400001000)
                  (mkClock 1705400001250 1705400001250)
                  (Rejected UpstreamError) ]
              initial) as [_ [added [E Hs]]]; [reflexivity|].
  rewrite E. simpl. exact Hs.
Defined.

(** X11.  In every conversation that starts with the welcome message, a
    message of the user carries no agent name. *)
Theorem user_messages_untagged (userName : Js.str) (today : Z)
  (xs : list Exchange) :
  Forall (fun m => sender m = sender_user -> agent m = None)
    (messages
       (converse xs
          {| messages := [welcome userName today]; inputValue := [];
             isLoading := false |})).
Proof.
  set (st0 := {| messages := [welcome userName today]; inputValue := [];
                 isLoading := false |}).
  assert (H0 : isLoading st0 = false
               /\ Forall (fun m => sender m = sender_user -> agent m = None)
                    (messages st0)).
  { split; [reflexivity|]. repeat constructor. simpl. discriminate. }
  revert H0. generalize st0. clear st0.
  induction xs as [|x xs IH]; intros st [Hidle Hinv]; [exact Hinv|].
  change (converse (x :: xs) st) with (converse xs (exchange x st)).
  apply IH.
  destruct (exchange_messages x st Hidle) as [Hidle' [added [E [_ Hadd]]]].
  split; [exact Hidle'|]. rewrite E. apply Forall_app. split; assumption.
Qed.

(** X12.  When the clock has not gone back while the request was under
    way, the two messages of an exchange carry different identifiers. *)
Theorem exchange_ids_differ (before after : Clock) (net : ChatFetch)
  (st : State) :
  Js.trim (inputValue st) <> [] ->
  isLoading st = false ->
  (now before <= now after)%Z ->
  exists userMessage agentMessage,
    messages (state (sendMessage before after net st))
    = messages st ++ [userMessage; agentMessage]
    /\ id userMessage <> id agentMessage.
Proof.
  intros Hinput Hidle Hclock. unfold sendMessage.
  apply JsFacts.truthy_trim in Hinput. rewrite Hinput, Hidle. simpl.
  destruct (awaitReply net) as [e | data]; simpl;
    do 2 eexists; (split; [rewrite <- app_assoc; reflexivity|]); simpl;
    intros E; apply JsMore.toString_inj in E; lia.
Qed.

Lemma exchange_ids_differ_witness :
  exists userMessage agentMessage,
    messages
      (state (sendMessage (mkClock 1705400000000 1705400000000)
                (mkClock 1705400000000 1705400000000)
                (Rejected UpstreamError)
                (setInputValue (Js.lit "Show my tasks") initial)))
    = [userMessage; agentMessage]
    /\ id userMessage <> id agentMessage.
Proof.
  apply (exchange_ids_differ (mkClock 1705400000000 1705400000000)
           (mkClock 1705400000000 1705400000000)
           (Rejected UpstreamError)
           (setInputValue (Js.lit "Show my tasks") initial)).
  - vm_compute. discriminate.
  - reflexivity.
  - simpl. lia.
Defined.

End ChatOps.

(** ** Dashboard: several suggestions handled *)
Module DashboardOps.
Import Dashboard.

Lemma filter_swap {A : Type} (p q : A -> bool) (l : list A) :
  filter p (filter q l) = filter q (filter p l).
Proof.
  induction l as [|a l IH]; simpl; [reflexivity|].
  destruct (p a) eqn:Ep, (q a) eqn:Eq; simpl;
    rewrite ?Ep, ?Eq; congruence.
Qed.

Lemma filter_again {A : Type} (p : A -> bool) (l : list A) :
  filter p (filter p l) = filter p l.
Proof.
  induction l as [|a l IH]; simpl; [reflexivity|].
  destruct (p a) eqn:Ep; simpl; rewrite ?Ep; congruence.
Qed.

(** X13.  The order in which two suggestions are accepted or dismissed
    does not matter, and handling one a second time changes nothing. *)
Theorem handleSuggestionAction_commutes (a b : Z) (action action' : Js.str)
  (st : State) :
  state (handleSuggestionAction a action
           (state (handleSuggestionAction b action' st)))
  = state (handleSuggestionAction b action'
             (state (handleSuggestionAction a action st)))
  /\ handleSuggestionAction a action'
       (state (handleSuggestionAction a action st))
     = handleSuggestionAction a action st.
Proof.
  unfold handleSuggestionAction, done, setSuggestions; simpl. split.
  - f_equal. apply filter_swap.
  - do 2 f_equal. apply filter_again.
Qed.

Lemma handled_survivor (calls : list (Z * Js.str)) (st : State)
  (s : Suggestion) :
  In s (suggestions
          (fold_left
             (fun acc call =>
                state (handleSuggestionAction (fst call) (snd call) acc))
             calls st)) ->
  In s (suggestions st) /\ ~ In (id s) (map fst calls).
Proof.
  revert st; induction calls as [|call calls IH]; intros st; simpl.
  - tauto.
  - intros H. apply IH in H. destruct H as [Hin Hnot]. simpl in Hin.
    apply filter_In in Hin. destruct Hin as [Hin Hid].
    apply negb_true_iff, Z.eqb_neq in Hid.
    split; [exact Hin|]. intros [E | E]; [congruence | tauto].
Qed.

(** X14.  Once every suggestion of the list has been accepted or
    dismissed, in any order and with any repetition, the list is empty. *)
Theorem handle_all_empties (calls : list (Z * Js.str)) (st : State) :
  (forall s, In s (suggestions st) -> In (id s) (map fst calls)) ->
  suggestions
    (fold_left
       (fun acc call =>
          state (handleSuggestionAction (fst call) (snd call) acc))
       calls st)
  = [].
Proof.
  intros Hall.
  destruct (suggestions (fold_left _ calls st)) as [|s rest] eqn:E;
    [reflexivity|].
  exfalso.
  destruct (@handled_survivor calls st s) as [Hin Hnot].
  - rewrite E. left; reflexivity.
  - apply Hnot, Hall, Hin.
Qed.

Lemma handle_all_empties_witness :
  suggestions
    (fold_left
       (fun acc call =>
          state (handleSuggestionAction (fst call) (snd call) acc))
       [(3%Z, dismiss); (1%Z, accept); (2%Z, dismiss)]
       (state (fetchDashboardData None initial)))
  = [].
Proof.
  apply (handle_all_empties
           [(3%Z, dismiss); (1%Z, accept); (2%Z, dismiss)]
           (state (fetchDashboardData None initial))).
  intros s Hin. simpl in Hin.
  repeat (destruct Hin as [<- | Hin]; [vm_compute; tauto|]).
  contradiction.
Defined.

End DashboardOps.

(** ** CalendarView: the events of a day *)
Module CalendarOps.
Import CalendarView.

Lemma addEvent_events (now : Z) (st : State) :
  Js.trim (new_title (newEvent st)) <> [] ->
  new_start_time (newEvent st) <> [] ->
  new_end_time (newEvent st) <> [] ->
  events (state (addEvent now st))
  = events st
    ++ [ {| id := Js.toString now;
            title := new_title (newEvent st);
            description := Some (new_description (newEvent st));
            start_time := new_start_time (newEvent st);
            end_time := new_end_time (newEvent st);
            location := Some (new_location (newEvent st)) |} ].
Proof.
  intros Ht Hs He. unfold addEvent.
  apply JsFacts.truthy_trim in Ht. rewrite Ht.
  destruct (new_start_time (newEvent st)) as [|c1 r1]; [congruence|].
  destruct (new_end_time (newEvent st)) as [|c2 r2]; [congruence|].
  reflexivity.
Qed.

(** X15.  An event added through the dialog is listed in the column of a
    day exactly when its start begins with the date of that day; the
    events the column listed before stay, in their order, ahead of it. *)
Theorem addEvent_then_listed (toISOString : Z -> Js.str) (now day : Z)
  (st : State) :
  Js.trim (new_title (newEvent st)) <> [] ->
  new_start_time (newEvent st) <> [] ->
  new_end_time (newEvent st) <> [] ->
  exists event,
    events (state (addEvent now st)) = events st ++ [event]
    /\ start_time event = new_start_time (newEvent st)
    /\ getEventsForDate toISOString day (state (addEvent now st))
       = getEventsForDate toISOString day st
         ++ (if Js.startsWith (new_start_time (newEvent st))
                  (Js.beforeFirst 84 (toISOString day))
             then [event] else []).
Proof.
  intros Ht Hs He.
  pose proof (addEvent_events now st Ht Hs He) as E.
  eexists. split; [exact E|]. split; [reflexivity|].
  unfold getEventsForDate. rewrite E, filter_app. simpl.
  destruct (Js.startsWith _ _); reflexivity.
Qed.

Lemma addEvent_then_listed_witness :
  exists event,
    getEventsForDate Js.isoString 1705400000000
      (state (addEvent 1705390000000
                (setNewEvent (fun _ => backwardsMeeting) (initial 0))))
    = [event]
    /\ start_time event = Js.lit "2024-01-16T10:00".
Proof.
  destruct (@addEvent_then_listed Js.isoString 1705390000000 1705400000000
              (setNewEvent (fun _ => backwardsMeeting) (initial 0)))
    as [event [_ [Hs Hl]]];
    [vm_compute; discriminate | vm_compute; discriminate
     | vm_compute; discriminate |].
  exists event. split; [exact Hl | exact Hs].
Defined.

(** X16.  No event is listed under two different days: when the dates of
    two days are written with the same number of characters and differ,
    the columns of the two days share no event. *)
Theorem getEventsForDate_one_day (toISOString : Z -> Js.str) (a b : Z)
  (st : State) (event : Event) :
  List.length (Js.beforeFirst 84 (toISOString a))
  = List.length (Js.beforeFirst 84 (toISOString b)) ->
  Js.beforeFirst 84 (toISOString a) <> Js.beforeFirst 84 (toISOString b) ->
  In event (getEventsForDate toISOString a st) ->
  ~ In event (getEventsForDate toISOString b st).
Proof.
  intros Hlen Hdiff Ha Hb. unfold getEventsForDate in Ha, Hb.
  apply filter_In in Ha. apply filter_In in Hb.
  destruct Ha as [_ Ha]. destruct Hb as [_ Hb].
  apply Hdiff. exact (JsMore.startsWith_same_length _ _ _ Ha Hb Hlen).
Qed.

Lemma getEventsForDate_one_day_witness :
  let st := state (addEvent 1705390000000
                     (setNewEvent (fun _ => backwardsMeeting) (initial 0))) in
  let event := nth 0 (events st) (mkEvent [] [] None [] [] None) in
  In event (getEventsForDate Js.isoString 1705400000000 st)
  /\ ~ In event (getEventsForDate Js.isoString 1705486400000 st).
Proof.
  intros st event.
  assert (Hin : In event (getEventsForDate Js.isoString 1705400000000 st))
    by (left; reflexivity).
  split; [exact Hin|].
  apply (@getEventsForDate_one_day Js.isoString 1705400000000 1705486400000
           st event).
  - reflexivity.
  - vm_compute. discriminate.
  - exact Hin.
Defined.

End CalendarOps.

(** ** VideoReports *)
Module VideoFacts.
Import VideoReports.




(** Every way the request for a report can fail. *)
Lemma awaitReport_failure (net : ReportFetch) (e : Error) :
  awaitReport net = inl e <->
  net = Rejected e
  \/ (exists json,
        net = Responded false json
        /\ e = OtherError (Js.lit "Failed to generate video report"))
  \/ net = Responded true (inl e).
Proof.
  destruct net as [e' | [|] [e' | data]]; simpl; split; intros H.
  all: try (inversion H; subst; eauto; fail).
  all: try (destruct H as [H | [[json [H E]] | H]]; inversion H; subst;
            try rewrite E; reflexivity).
Qed.

(** X18.  A request for a report that fails, in whatever way, loses no
    report: the list, the report selected and the loading flag stay as
    they are, the failure is announced by the alert, and the component is
    no longer generating. *)
Theorem generateReport_failure (toUpperCase : Js.str -> Js.str)
  (toLocaleDateString : Z -> Js.str) (clock : Clock) (stamp : Z)
  (net : ReportFetch) (reportType : Js.str) (st : State) (e : Error) :
  net = Rejected e
  \/ (exists json,
        net = Responded false json
        /\ e = OtherError (Js.lit "Failed to generate video report"))
  \/ net = Responded true (inl e) ->
  let run := generateReport toUpperCase toLocaleDateString clock stamp net
               reportType st in
  reports (state (outcome run)) = reports st
  /\ selectedReport (state (outcome run)) = selectedReport st
  /\ loading (state (outcome run)) = loading st
  /\ generating (state (outcome run)) = false
  /\ raised (outcome run) = Some e
  /\ alerted run
     = Some (Js.lit "Failed to generate video report. Please try again.").
Proof.
  intros H run. apply awaitReport_failure in H.
  unfold run, generateReport. rewrite H. simpl. repeat split.
Qed.

Lemma generateReport_failure_witness :
  reports
    (state (outcome
              (generateReport Js.asciiToLowerCase Js.isoString
                 (mkClock 1705400000000 1705400000000) 1705400000000
                 (Responded false (inl UpstreamError)) (Js.lit "daily")
                 (state (fetchReports initial)))))
  = mockReports.
Proof.
  apply (@generateReport_failure Js.asciiToLowerCase Js.isoString
           (mkClock 1705400000000 1705400000000) 1705400000000
           (Responded false (inl UpstreamError)) (Js.lit "daily")
           (state (fetchReports initial))
           (OtherError (Js.lit "Failed to generate video report"))).
  right; left. eexists. split; reflexivity.
Defined.

End VideoFacts.

(** ** TaskManager: what the list shows and keeps *)
Module TaskDisplay.
Import TaskManager.

Lemma Status_eqb_refl (s : Status) : Status_eqb s s = true.
Proof. destruct s; reflexivity. Qed.

(** X19.  The search does not look at the case of letters: a task whose
    title, or whose description, equals the search term once both are
    lowered is displayed, provided the status filter admits its status. *)
Theorem search_ignores_case (toLowerCase : Js.str -> Js.str)
  (task : Task) (st : State) :
  In task (tasks st) ->
  filter st = all \/ filter st = only (status task) ->
  toLowerCase (title task) = toLowerCase (searchTerm st)
  \/ option_map toLowerCase (description task)
     = Some (toLowerCase (searchTerm st)) ->
  In task (filterTasks toLowerCase st).
Proof.
  intros Hin Hf Hterm.
  assert (Hmatch : matchesSearch toLowerCase (searchTerm st) task = true).
  { unfold matchesSearch. destruct Hterm as [E | E].
    - rewrite E, JsMore.includes_refl. reflexivity.
    - destruct (description task) as [d|]; [|discriminate].
      simpl in E. inversion E as [E']. rewrite E', JsMore.includes_refl.
      apply orb_true_r. }
  assert (Hstatus : match filter st with
                    | all => True
                    | only s => Status_eqb (status task) s = true
                    end).
  { destruct Hf as [-> | ->]; [exact I | apply Status_eqb_refl]. }
  unfold filterTasks.
  destruct (filter st) as [|s]; destruct (Js.truthy (searchTerm st));
    repeat (apply filter_In; split); auto.
Qed.

Lemma search_ignores_case_witness :
  In (nth 0 mockTasks (mkTask [] [] None low pending None 0))
    (filterTasks Js.asciiToLowerCase
       (setSearchTerm (Js.lit "REVIEW quarterly REPORTS")
          (setFilter (only pending) (state (fetchTasks initial))))).
Proof.
  apply (@search_ignores_case Js.asciiToLowerCase
           (nth 0 mockTasks (mkTask [] [] None low pending None 0))
           (setSearchTerm (Js.lit "REVIEW quarterly REPORTS")
              (setFilter (only pending) (state (fetchTasks initial))))).
  - left; reflexivity.
  - right; reflexivity.
  - left; reflexivity.
Defined.

(** X20.  No event of the component removes a task or changes anything of
    it but its status: after any event the tasks are the old ones, up to
    status and in their order, with at most one new task in front. *)
Theorem tasks_never_removed (op : Operation) (st : State) :
  exists added,
    map (fun task => withStatus task pending)
      (tasks (state (perform op st)))
    = added ++ map (fun task => withStatus task pending) (tasks st)
    /\ List.length added <= 1.
Proof.
  destruct op as [b | e | clock | f | term | b task]; simpl;
    try (exists []; split; [reflexivity | simpl; lia]).
  - destruct (Js.trim (new_title (newTask st))) as [|c r] eqn:Ht.
    + rewrite (TaskFacts.addTask_blank clock st Ht).
      exists []; split; [reflexivity | simpl; lia].
    + rewrite TaskFacts.addTask_tasks by (rewrite Ht; discriminate).
      eexists [_]. split; [reflexivity | simpl; lia].
  - exists []. split; [|simpl; lia]. unfold click.
    destruct (onClick b task) as [[taskId s]|]; [|reflexivity].
    rewrite TaskFacts.tasks_updateTaskStatus, map_map. simpl.
    apply map_ext. intros t. destruct (Js.eqb (id t) taskId); reflexivity.
Qed.

End TaskDisplay.
